(** * tsc: processor identification and TSC-frequency discovery

    A shallow embedding of [src/main.cpp].  Fixed-width C++ integers are
    integers of [Z] with their wrap-around written out, [double] values are
    IEEE-754 binary64 numbers in the [spec_float] representation, and the
    effects of the program (CPUID queries, the MSR pseudo-file, integer
    divisions, trace lines on stderr) are recorded in a chronological event
    trace carried by a small writer/error monad. *)

From Stdlib Require Import ZArith List String Bool Lia.
From Stdlib Require Import Strings.Byte.
From Stdlib Require Import Floats.SpecFloat.
Import ListNotations.
Local Open Scope Z_scope.

(** ** Fixed-width unsigned arithmetic *)

Module Machine.

Definition u8 (z : Z) : Z := z mod 2 ^ 8.
Definition u32 (z : Z) : Z := z mod 2 ^ 32.
Definition u64 (z : Z) : Z := z mod 2 ^ 64.

End Machine.
Import Machine.

(** ** Model identifiers ([#define INTEL_FAM6_...]) *)

Definition INTEL_FAM6_NEHALEM : Z := 0x1E.
Definition INTEL_FAM6_NEHALEM_G : Z := 0x1F.
Definition INTEL_FAM6_NEHALEM_EP : Z := 0x1A.
Definition INTEL_FAM6_NEHALEM_EX : Z := 0x2E.

Definition INTEL_FAM6_WESTMERE : Z := 0x25.
Definition INTEL_FAM6_WESTMERE_EP : Z := 0x2C.
Definition INTEL_FAM6_WESTMERE_EX : Z := 0x2F.

Definition INTEL_FAM6_SKYLAKE_L : Z := 0x4E.
Definition INTEL_FAM6_SKYLAKE : Z := 0x5E.
Definition INTEL_FAM6_ATOM_GOLDMONT : Z := 0x5C.
Definition INTEL_FAM6_ATOM_GOLDMONT_D : Z := 0x5F.
Definition INTEL_FAM6_ATOM_GOLDMONT_PLUS : Z := 0x7A.

Definition PROCESSOR_NAME_MAXLEN : Z := 16.

(** ** The machine the program runs on *)

(** The four output registers of one CPUID query (32-bit values). *)
Record regs : Type := mkRegs { r_eax : Z; r_ebx : Z; r_ecx : Z; r_edx : Z }.

(** What the program can observe of its host.  [cpuid leaf] is the content of
    the four variables after [eax = ebx = ecx = edx = 0; __get_cpuid(leaf, ...)].
    [msr_dev] is [None] when [open("/dev/cpu/0/msr", O_RDONLY)] fails, and
    otherwise maps an offset to the outcome of an 8-byte [pread] there: [None]
    for an error return, [Some bs] for the bytes delivered.  [tsc k] is the
    value of the time-stamp counter at the [k]-th [rdtsc] of the run. *)
Record world : Type := mkWorld {
  cpuid : Z -> regs;
  msr_dev : option (Z -> option (list byte));
  tsc : nat -> Z
}.

Definition wf_regs (r : regs) : Prop :=
  0 <= r_eax r < 2 ^ 32 /\ 0 <= r_ebx r < 2 ^ 32 /\
  0 <= r_ecx r < 2 ^ 32 /\ 0 <= r_edx r < 2 ^ 32.

(** ** Effects *)

Inductive arg : Type :=
| AInt (z : Z)
| AStr (s : list byte)
| ADbl (d : spec_float).

Inductive event : Type :=
| EvCpuid (leaf : Z)
| EvPrint (fmt : string) (args : list arg)
| EvDiv (dividend divisor : Z)
| EvOpen (path : string)
| EvPread (offset : Z)
| EvClose
| EvRdtsc (k : nat)
| EvSleep (ms : Z).

(** A computation either finishes with a value or stops at an operation whose
    behaviour C++ leaves undefined (an integer division by zero, a
    floating-point to integer conversion out of range). *)
Inductive outcome (A : Type) : Type :=
| Done (a : A)
| Undefined.
Arguments Done {A} a.
Arguments Undefined {A}.

Definition M (A : Type) : Type := list event * outcome A.

Definition ret {A} (a : A) : M A := ([], Done a).

Definition bind {A B} (m : M A) (k : A -> M B) : M B :=
  match m with
  | (t, Done a) => let (t', r) := k a in (t ++ t', r)
  | (t, Undefined) => (t, Undefined)
  end.

Definition emit (e : event) : M unit := ([e], Done tt).

Definition undefined {A} : M A := ([], Undefined).

Declare Scope prog_scope.
Delimit Scope prog_scope with prog.
Notation "x <- m ;; k" := (bind m (fun x => k))
  (at level 61, m at next level, right associativity) : prog_scope.
Notation "m ;;; k" := (bind m (fun _ => k))
  (at level 61, right associativity) : prog_scope.
Local Open Scope prog_scope.

Definition trace_of {A} (m : M A) : list event := fst m.

Definition value_of {A} (m : M A) : option A :=
  match snd m with Done a => Some a | Undefined => None end.

Definition print (fmt : string) (args : list arg) : M unit :=
  emit (EvPrint fmt args).

Definition get_cpuid (w : world) (leaf : Z) : M regs :=
  emit (EvCpuid leaf) ;;; ret (cpuid w leaf).

(** Unsigned 64-bit division; the divisor is not checked by the operation. *)
Definition udiv64 (n d : Z) : M Z :=
  emit (EvDiv n d) ;;; if d =? 0 then undefined else ret (n / d).

Definition is_div (e : event) : bool :=
  match e with EvDiv _ _ => true | _ => false end.

Definition is_msr_access (e : event) : bool :=
  match e with EvOpen _ | EvPread _ | EvClose => true | _ => false end.

(** Traces free of divisions, and of accesses to the MSR device. *)
Definition no_division (t : list event) : bool := forallb (fun e => negb (is_div e)) t.
Definition no_msr_access (t : list event) : bool :=
  forallb (fun e => negb (is_msr_access e)) t.

(** ** [GetProcessorModelFamily] *)

Definition base_family (eax : Z) : Z := Z.land (Z.shiftr eax 8) 0x0f.
Definition base_model (eax : Z) : Z := Z.land (Z.shiftr eax 4) 0x0f.
Definition ext_family (eax : Z) : Z := Z.land (Z.shiftr eax 20) 0xff.
Definition ext_model (eax : Z) : Z := Z.land (Z.shiftr eax 16) 0xf.

(** [family = (eax >> 8) & 0x0f; if (family == 0x0f) family += (eax >> 20) & 0xff;]
    with [family] a [uint8_t]: the sum is formed in [unsigned int] and stored
    back into eight bits. *)
Definition decode_family (eax : Z) : Z :=
  let family := u8 (base_family eax) in
  if family =? 0x0f then u8 (u32 (family + ext_family eax)) else family.

(** [model = (eax >> 4) & 0x0f; if (family >= 6) model += ((eax >> 16) & 0xf) << 4;]
    where [family] is the variable as updated above. *)
Definition decode_model (eax : Z) : Z :=
  let model := u8 (base_model eax) in
  if 6 <=? decode_family eax
  then u8 (u32 (model + Z.shiftl (ext_model eax) 4))
  else model.

Definition GetProcessorModelFamily (w : world) : M (Z * Z) :=
  r <- get_cpuid w 0x01 ;;
  let eax := r_eax r in
  let family := decode_family eax in
  let model := decode_model eax in
  let stepping := Z.land eax 0x0f in
  let ecx_flags := r_ecx r in
  let edx_flags := r_edx r in
  print "model: {0:x}, family: {0:x}, stepping: {0:x}, ecx_flags: {0:x}, edx_flags: {0:x}\n"
        [AInt model; AInt family; AInt stepping; AInt ecx_flags; AInt edx_flags] ;;;
  ret (model, family).

(** ** [IsModelWestmere], [IsModelNehalem] *)

Definition IsModelWestmere (model : Z) : bool :=
  if (model =? INTEL_FAM6_WESTMERE)
     || (model =? INTEL_FAM6_WESTMERE_EP)
     || (model =? INTEL_FAM6_WESTMERE_EX)
  then true else false.

Definition IsModelNehalem (model : Z) : bool :=
  if (model =? INTEL_FAM6_NEHALEM)
     || (model =? INTEL_FAM6_NEHALEM_G)
     || (model =? INTEL_FAM6_NEHALEM_EP)
     || (model =? INTEL_FAM6_NEHALEM_EX)
  then true else false.

(** ** [ReadMsr] *)

(** The value of a little-endian byte sequence. *)
Definition le_decode (bs : list byte) : Z :=
  fold_right (fun b acc => Z.of_N (Byte.to_N b) + 256 * acc) 0 bs.

(** Storing [bs] over the low bytes of a 64-bit object holding [val]. *)
Definition store_low (val : Z) (bs : list byte) : Z :=
  let span := 2 ^ (8 * Z.of_nat (List.length bs)) in
  u64 (le_decode bs + span * (val / span)).

(** [ReadMsr msr val] returns the boolean result together with the content of
    [*val] afterwards.  The descriptor is closed on both outcomes of [pread]. *)
Definition ReadMsr (w : world) (msr : Z) (val : Z) : M (bool * Z) :=
  emit (EvOpen "/dev/cpu/0/msr") ;;;
  match msr_dev w with
  | Some dev =>
      emit (EvPread msr) ;;;
      let '(result, val') :=
        match dev msr with
        | Some bs => let got := firstn 8 bs in
                     (Z.of_nat (List.length got), store_low val got)
        | None => (-1, val)
        end in
      let r := if result =? 8 then true else false in
      emit EvClose ;;;
      ret (r, val')
  | None => ret (false, val)
  end.

(** ** Binary64 arithmetic used by the program *)

Definition int_to_double (z : Z) : spec_float := binary_normalize 53 1024 z 0 false.

(** The literal [1E6]. *)
Definition d1E6 : spec_float := int_to_double 1000000.

Definition dmul : spec_float -> spec_float -> spec_float := SFmul 53 1024.
Definition ddiv : spec_float -> spec_float -> spec_float := SFdiv 53 1024.

(** The integer part of [m * 2^e], towards zero. *)
Definition trunc_mag (m : positive) (e : Z) : Z :=
  if 0 <=? e then Z.pos m * 2 ^ e else Z.pos m / 2 ^ (- e).

(** Conversion of a [double] to [uint64_t]: truncation, undefined when the
    truncated value is not representable. *)
Definition double_to_u64 (d : spec_float) : M Z :=
  match d with
  | S754_zero _ => ret 0
  | S754_finite false m e =>
      let z := trunc_mag m e in if z <? 2 ^ 64 then ret z else undefined
  | S754_finite true m e =>
      if trunc_mag m e =? 0 then ret 0 else undefined
  | S754_infinity _ | S754_nan => undefined
  end.

(** [reg * mult * 1E6], converted back to [uint64_t], on one ratio byte. *)
Definition scaled_exactly (mult reg : Z) : bool :=
  match double_to_u64 (dmul (int_to_double (reg * mult)) d1E6) with
  | ([], Done z) => z =? reg * mult * 1000000
  | _ => false
  end.

Definition is_finite (d : spec_float) : bool :=
  match d with S754_zero _ | S754_finite _ _ _ => true | _ => false end.

(** ** [GetTscHz] *)

(** The [switch (model)] entered when CPUID(0x15) reports [ecx == 0]. *)
Definition crystal_table (model : Z) : Z :=
  if (model =? INTEL_FAM6_SKYLAKE_L) || (model =? INTEL_FAM6_SKYLAKE)
  then 24000000
  else if model =? INTEL_FAM6_ATOM_GOLDMONT_D
  then 25000000
  else if (model =? INTEL_FAM6_ATOM_GOLDMONT) || (model =? INTEL_FAM6_ATOM_GOLDMONT_PLUS)
  then 19200000
  else 0.

(** The [case] labels of that [switch]. *)
Definition crystal_models : list Z :=
  [INTEL_FAM6_SKYLAKE_L; INTEL_FAM6_SKYLAKE; INTEL_FAM6_ATOM_GOLDMONT_D;
   INTEL_FAM6_ATOM_GOLDMONT; INTEL_FAM6_ATOM_GOLDMONT_PLUS].

(** The crystal frequency tier 1 works with: the reported one, or the table's
    when none is reported. *)
Definition crystal_hz (model ecx : Z) : Z :=
  if ecx =? 0 then crystal_table model else ecx.

(** Tier 1, the block guarded by [maxLevel >= 0x15]; its value is [tsc_hz] as
    it stands when the block is left. *)
Definition tier1 (w : world) (model maxLevel : Z) : M Z :=
  if 0x15 <=? maxLevel then
    r <- get_cpuid w 0x15 ;;
    let eax := r_eax r in
    let ebx := r_ebx r in
    let edx := r_edx r in
    print "CPUID(0x15): eax_crystal: {} ebx_tsc: {} ecx_crystal_hz: {}, edx {}\n"
          [AInt eax; AInt ebx; AInt (r_ecx r); AInt edx] ;;;
    if negb (ebx =? 0) then
      let ecx := crystal_hz model (r_ecx r) in
      if negb (ecx =? 0) then
        tsc_hz <- udiv64 (u64 (ecx * ebx)) eax ;;
        mhz <- udiv64 tsc_hz 1000000 ;;
        print "TSC: {} MHz ({} Hz * {} / {} / 1000000)\n"
              [AInt mhz; AInt ecx; AInt ebx; AInt eax] ;;;
        ret tsc_hz
      else ret 0
    else ret 0
  else ret 0.

(** The [case] labels of [IsModelWestmere] and [IsModelNehalem]. *)
Definition legacy_models : list Z :=
  [INTEL_FAM6_WESTMERE; INTEL_FAM6_WESTMERE_EP; INTEL_FAM6_WESTMERE_EX;
   INTEL_FAM6_NEHALEM; INTEL_FAM6_NEHALEM_G; INTEL_FAM6_NEHALEM_EP;
   INTEL_FAM6_NEHALEM_EX].

Definition bus_mult (model : Z) : Z :=
  if IsModelWestmere model || IsModelNehalem model then 133 else 100.

(** Tier 2, the block guarded by [tsc_hz == 0]. *)
Definition tier2 (w : world) (model : Z) : M Z :=
  let mult := bus_mult model in
  rv <- ReadMsr w 0xCE 0 ;;
  let '(r, value) := rv in
  if r && negb (value =? 0) then
    let reg := u8 (Z.land (Z.shiftr value 8) 0xff) in
    double_to_u64 (dmul (int_to_double (reg * mult)) d1E6)
  else ret 0.

Definition GetTscHz (w : world) (model maxLevel : Z) : M Z :=
  tsc_hz <- tier1 w model maxLevel ;;
  if tsc_hz =? 0 then tier2 w model else ret tsc_hz.

(** ** [GetProcessorInfo] *)

Inductive ProcessorVendor : Type := INTEL | AMD | HYGON | UNKNOWN.

Record ProcessorInfo : Type := mkInfo {
  vendor : ProcessorVendor;
  maxLevel : Z;
  name : list byte;
  model : Z;
  family : Z;
  tscHz : Z
}.

Definition byte_of_Z (z : Z) : byte :=
  match Byte.of_N (Z.to_N (z mod 256)) with Some b => b | None => x00 end.

(** The four bytes of a 32-bit register in memory order. *)
Definition reg_bytes (r : Z) : list byte :=
  map (fun i => byte_of_Z (Z.shiftr r (8 * i))) [0; 1; 2; 3].

(** A C string: the bytes before the first NUL. *)
Fixpoint c_string (bs : list byte) : list byte :=
  match bs with
  | [] => []
  | b :: bs' => if Byte.eqb b x00 then [] else b :: c_string bs'
  end.

Definition GetProcessorInfo (w : world) : M (bool * ProcessorInfo) :=
  r <- get_cpuid w 0 ;;
  let eax := r_eax r in
  let ebx := r_ebx r in
  let ecx := r_ecx r in
  let edx := r_edx r in
  let vendor :=
    if (ebx =? 0x756e6547) && (ecx =? 0x6c65746e) && (edx =? 0x49656e69) then INTEL
    else if (ebx =? 0x68747541) && (ecx =? 0x444d4163) && (edx =? 0x69746e65) then AMD
    else if (ebx =? 0x6f677948) && (ecx =? 0x656e6975) && (edx =? 0x6e65476e) then HYGON
    else UNKNOWN in
  let maxLevel := eax in
  let processorName := c_string (reg_bytes ebx ++ reg_bytes edx ++ reg_bytes ecx ++ [x00]) in
  print "CPUID: {}, max level: {}\n" [AStr processorName; AInt maxLevel] ;;;
  mf <- GetProcessorModelFamily w ;;
  let '(model, family) := mf in
  tsc_hz <- GetTscHz w model maxLevel ;;
  ret (true, mkInfo vendor maxLevel processorName model family tsc_hz).

(** ** [ReadTsc] and the sampling loop of [main] *)

Definition ReadTsc (w : world) (k : nat) : M Z :=
  emit (EvRdtsc k) ;;;
  let lo := u32 (tsc w k) in
  let hi := u32 (Z.shiftr (tsc w k) 32) in
  ret (Z.lor (u64 (Z.shiftl hi 32)) lo).

(** [static_cast<double>(diff) / info.tscHz] *)
Definition duration_of (diff hz : Z) : spec_float :=
  ddiv (int_to_double diff) (int_to_double hz).

(** One turn of [while (true)], with [k] counter reads made before it. *)
Definition sample (w : world) (info : ProcessorInfo) (k : nat) : M unit :=
  t1 <- ReadTsc w k ;;
  t <- ReadTsc w (S k) ;;
  print "ticks: {}\n" [AInt t] ;;;
  emit (EvSleep 1000) ;;;
  t2 <- ReadTsc w (S (S k)) ;;
  print "ticks for 1 second: {}\n" [AInt (u64 (t2 - t1))] ;;;
  let diff := u64 (t2 - t1) in
  let duration := duration_of diff (tscHz info) in
  print "duration: {:f}\n" [ADbl duration].

(** The first [n] turns of the loop. *)
Fixpoint sampling_loop (w : world) (info : ProcessorInfo) (n : nat) (k : nat) : M unit :=
  match n with
  | O => ret tt
  | S n' => sample w info k ;;; sampling_loop w info n' (k + 3)
  end.

(** [main] observed for [n] turns of its loop; [Some c] is an exit code. *)
Definition main (w : world) (n : nat) : M (option Z) :=
  gi <- GetProcessorInfo w ;;
  let '(ok, info) := gi in
  if negb ok then
    print "Failed to get processor info" [] ;;; ret (Some (-1))
  else
    print "TSC: {} \n" [AInt (tscHz info)] ;;;
    sampling_loop w info n 0 ;;;
    ret None.

(** ** Sample hosts *)

(** A host answering CPUID leaves 0, 1 and 0x15 with the given registers and
    every other leaf with zeros; its counter advances 3,000,000,000 ticks
    between reads. *)
Definition host (leaf0 leaf1 leaf15 : regs) (dev : option (Z -> option (list byte))) : world :=
  mkWorld (fun leaf => if leaf =? 0 then leaf0
                       else if leaf =? 0x01 then leaf1
                       else if leaf =? 0x15 then leaf15
                       else mkRegs 0 0 0 0)
          dev
          (fun k => 3000000000 * Z.of_nat k).

Definition GenuineIntel (maxLevel : Z) : regs :=
  mkRegs maxLevel 0x756e6547 0x6c65746e 0x49656e69.

(** A Skylake part reporting ratio 100/2 and a 24 MHz crystal. *)
Definition host_skylake : world :=
  host (GenuineIntel 0x16) (mkRegs 0x000506E3 0 0 0) (mkRegs 2 100 24000000 0) None.

(** The same part reporting a zero denominator. *)
Definition host_zero_denominator : world :=
  host (GenuineIntel 0x16) (mkRegs 0x000506E3 0 0 0) (mkRegs 0 100 24000000 0) None.

(** A part reporting the ratio only, without MSR device. *)
Definition host_ratio_only : world :=
  host (GenuineIntel 0x16) (mkRegs 0x000506E3 0 0 0) (mkRegs 2 100 0 0) None.

(** A part below CPUID level 0x15 whose MSR 0xCE holds ratio byte 30. *)
Definition host_msr : world :=
  host (GenuineIntel 0x0D) (mkRegs 0x000306A9 0 0 0) (mkRegs 0 0 0 0)
       (Some (fun _ => Some [x00; x1e; x00; x00; x00; x00; x00; x00]%byte)).

(** A part below CPUID level 0x15 run without access to the MSR device. *)
Definition host_unprivileged : world :=
  host (GenuineIntel 0x0D) (mkRegs 0x000306A9 0 0 0) (mkRegs 0 0 0 0) None.

(** ** Observations on hosts and traces *)

(** The 64-bit value a complete 8-byte read of the MSR at [msr] delivers on
    host [w], if there is one. *)
Definition msr_value (w : world) (msr : Z) : option Z :=
  match msr_dev w with
  | Some dev =>
      match dev msr with
      | Some bs => if (8 <=? List.length bs)%nat then Some (le_decode (firstn 8 bs)) else None
      | None => None
      end
  | None => None
  end.

(** The ratio field, bits 8-15 of the register value. *)
Definition ratio_of (value : Z) : Z := Z.land (Z.shiftr value 8) 0xff.


Definition is_rdtsc (e : event) : bool :=
  match e with EvRdtsc _ => true | _ => false end.

Definition is_sleep (e : event) : bool :=
  match e with EvSleep _ => true | _ => false end.

Definition is_open (e : event) : bool :=
  match e with EvOpen _ => true | _ => false end.

Definition is_close (e : event) : bool :=
  match e with EvClose => true | _ => false end.

Definition count (p : event -> bool) (t : list event) : nat := List.length (filter p t).

(** The vendor comparison of [GetProcessorInfo], as a function of the three
    signature registers, and the name it builds from them. *)
Definition vendor_of (ebx ecx edx : Z) : ProcessorVendor :=
  if (ebx =? 0x756e6547) && (ecx =? 0x6c65746e) && (edx =? 0x49656e69) then INTEL
  else if (ebx =? 0x68747541) && (ecx =? 0x444d4163) && (edx =? 0x69746e65) then AMD
  else if (ebx =? 0x6f677948) && (ecx =? 0x656e6975) && (edx =? 0x6e65476e) then HYGON
  else UNKNOWN.

Definition processor_name (ebx ecx edx : Z) : list byte :=
  c_string (reg_bytes ebx ++ reg_bytes edx ++ reg_bytes ecx ++ [x00]).

(** The signature a vendor is recognised by; none for [UNKNOWN]. *)
Definition signature (v : ProcessorVendor) : option (list byte) :=
  match v with
  | INTEL => Some (list_byte_of_string "GenuineIntel")
  | AMD => Some (list_byte_of_string "AuthenticAMD")
  | HYGON => Some (list_byte_of_string "HygonGenuine")
  | UNKNOWN => None
  end.

(** A host with the AMD signature, below CPUID level 0x15, without MSR device. *)
Definition host_amd : world :=
  host (mkRegs 0x0D 0x68747541 0x444d4163 0x69746e65) (mkRegs 0x00100F42 0 0 0)
       (mkRegs 0 0 0 0) None.

(** Traces without counter reads and sleeps. *)
Definition timing_free (t : list event) : bool :=
  forallb (fun e => negb (is_rdtsc e || is_sleep e)) t.

(** * Properties *)

(** ** Tools *)

Lemma u8_range z : 0 <= u8 z < 256.
Proof. unfold u8. change (2 ^ 8) with 256. apply Z.mod_pos_bound. lia. Qed.

Lemma u8_small z : 0 <= z < 256 -> u8 z = z.
Proof. intros H. unfold u8. change (2 ^ 8) with 256. apply Z.mod_small. exact H. Qed.

Lemma u32_small z : 0 <= z < 2 ^ 32 -> u32 z = z.
Proof. intros H. unfold u32. apply Z.mod_small. exact H. Qed.

Lemma u64_small z : 0 <= z < 2 ^ 64 -> u64 z = z.
Proof. intros H. unfold u64. apply Z.mod_small. exact H. Qed.

(** [x & (2^n - 1)] is the remainder modulo [2^n]; the two masks of the
    program are instances. *)
Lemma land_0x0f z : 0 <= Z.land z 0x0f < 16.
Proof.
  change 0x0f with (Z.ones 4). rewrite Z.land_ones by lia.
  change (2 ^ 4) with 16. apply Z.mod_pos_bound. lia.
Qed.

Lemma land_0xff z : 0 <= Z.land z 0xff < 256.
Proof.
  change 0xff with (Z.ones 8). rewrite Z.land_ones by lia.
  change (2 ^ 8) with 256. apply Z.mod_pos_bound. lia.
Qed.

(** A boolean property checked on every element of an initial segment of the
    naturals holds on the corresponding interval of [Z]. *)
Lemma forall_below (P : Z -> bool) (n : nat) :
  forallb P (map Z.of_nat (seq 0 n)) = true ->
  forall z, 0 <= z < Z.of_nat n -> P z = true.
Proof.
  intros H z Hz.
  rewrite forallb_forall in H. apply H.
  apply in_map_iff. exists (Z.to_nat z). split.
  - lia.
  - apply in_seq. lia.
Qed.

(** ** Family and model decoding *)

Section Decoding.

Variable eax : Z.

Lemma base_family_range : 0 <= base_family eax < 16.
Proof. apply land_0x0f. Qed.

Lemma base_model_range : 0 <= base_model eax < 16.
Proof. apply land_0x0f. Qed.

Lemma ext_family_range : 0 <= ext_family eax < 256.
Proof. apply land_0xff. Qed.

Lemma ext_model_range : 0 <= ext_model eax < 16.
Proof. apply (land_0x0f (Z.shiftr eax 16)). Qed.

Lemma decode_family_eq :
  decode_family eax =
  (base_family eax + (if base_family eax =? 0x0f then ext_family eax else 0)) mod 256.
Proof.
  unfold decode_family.
  pose proof base_family_range as Hb. pose proof ext_family_range as He.
  rewrite (u8_small (base_family eax)) by lia.
  destruct (base_family eax =? 0x0f) eqn:E.
  - rewrite u32_small by lia. reflexivity.
  - rewrite Z.add_0_r. symmetry. apply Z.mod_small. lia.
Qed.

Lemma decode_family_range : 0 <= decode_family eax < 256.
Proof. rewrite decode_family_eq. apply Z.mod_pos_bound. lia. Qed.

Lemma decode_family_base : base_family eax <> 0x0f -> decode_family eax = base_family eax.
Proof.
  intros H. rewrite decode_family_eq.
  apply Z.eqb_neq in H. rewrite H, Z.add_0_r.
  apply Z.mod_small. pose proof base_family_range. lia.
Qed.

Lemma decode_model_eq :
  decode_model eax =
  if 6 <=? decode_family eax
  then base_model eax + Z.shiftl (ext_model eax) 4
  else base_model eax.
Proof.
  unfold decode_model.
  pose proof base_model_range as Hb. pose proof ext_model_range as He.
  rewrite (u8_small (base_model eax)) by lia.
  destruct (6 <=? decode_family eax); [|reflexivity].
  rewrite Z.shiftl_mul_pow2 by lia. change (2 ^ 4) with 16.
  rewrite u32_small by lia. apply u8_small. lia.
Qed.

End Decoding.

Lemma nibbles_add_lor (lo hi : Z) :
  0 <= lo < 16 -> 0 <= hi < 16 -> lo + Z.shiftl hi 4 = Z.lor lo (Z.shiftl hi 4).
Proof.
  intros Hlo Hhi.
  assert (H : forall l, 0 <= l < Z.of_nat 16 ->
            (fun l => forallb (fun h => l + Z.shiftl h 4 =? Z.lor l (Z.shiftl h 4))
                              (map Z.of_nat (seq 0 16))) l = true).
  { apply forall_below. vm_compute. reflexivity. }
  specialize (H lo ltac:(simpl; lia)). simpl in H.
  apply Z.eqb_eq.
  apply (forall_below (fun h => lo + Z.shiftl h 4 =? Z.lor lo (Z.shiftl h 4)) 16 H).
  simpl; lia.
Qed.

Lemma GetProcessorModelFamily_value (w : world) :
  value_of (GetProcessorModelFamily w) =
  Some (decode_model (r_eax (cpuid w 0x01)), decode_family (r_eax (cpuid w 0x01))).
Proof. reflexivity. Qed.

(** C10: the family stored by [GetProcessorModelFamily] is the 8-bit value
    [(base_family + (extended_family if base_family = 0x0F else 0)) mod 256]
    for every CPUID(1) word; with base family 0x0F and extended field 0xF1
    the stored family is 0x00. *)
Theorem family_stored_modulo_256 :
  (forall w : world,
      let eax := r_eax (cpuid w 0x01) in
      option_map snd (value_of (GetProcessorModelFamily w)) =
      Some ((base_family eax
             + (if base_family eax =? 0x0f then ext_family eax else 0)) mod 256))
  /\ base_family 0x0F100F00 = 0x0f
  /\ ext_family 0x0F100F00 = 0xF1
  /\ decode_family 0x0F100F00 = 0x00.
Proof.
  split; [|repeat split; reflexivity].
  intros w eax. rewrite GetProcessorModelFamily_value. cbn [option_map snd fst].
  f_equal. apply decode_family_eq.
Qed.

(** C6, as stated, fails: with base family 0x0F and extended family 0xF1 the
    decoded family is 0, not 0x0F + 0xF1. *)
Lemma family_sum_wraps :
  base_family 0x0F100F00 = 0x0f /\
  option_map snd (value_of (GetProcessorModelFamily
                              (mkWorld (fun _ => mkRegs 0x0F100F00 0 0 0) None (fun _ => 0))))
  <> Some (0x0f + ext_family 0x0F100F00).
Proof. split; [reflexivity | vm_compute; discriminate]. Qed.

(** C6, amended: for every CPUID(1) word whose base family is 0x0F the decoded
    family is [(0x0F + extended_family) mod 256], which is [0x0F +
    extended_family] whenever the extended-family field is at most 0xF0. *)
Theorem family_extended (w : world) :
  let eax := r_eax (cpuid w 0x01) in
  base_family eax = 0x0f ->
  option_map snd (value_of (GetProcessorModelFamily w))
  = Some ((0x0f + ext_family eax) mod 256)
  /\ (ext_family eax <= 0xF0 ->
      option_map snd (value_of (GetProcessorModelFamily w))
      = Some (0x0f + ext_family eax)).
Proof.
  intros eax Hb. rewrite GetProcessorModelFamily_value. cbn [option_map snd fst].
  fold eax. rewrite decode_family_eq, Hb. simpl (0x0f =? 0x0f).
  split; [reflexivity|].
  intros He. f_equal. apply Z.mod_small.
  pose proof (ext_family_range eax). lia.
Qed.

Lemma family_extended_witness :
  option_map snd (value_of (GetProcessorModelFamily
                              (mkWorld (fun _ => mkRegs 0x00100F42 0 0 0) None (fun _ => 0))))
  = Some 0x10.
Proof.
  apply (proj2 (family_extended
                  (mkWorld (fun _ => mkRegs 0x00100F42 0 0 0) None (fun _ => 0))
                  eq_refl)).
  vm_compute. discriminate.
Defined.

(** C7, as stated, fails: base family 0x0F is at least 6, yet with extended
    family 0xF1 the extended-model nibble is not applied. *)
Lemma model_not_extended_after_wrap :
  6 <= base_family 0x0F110F20 /\
  ext_model 0x0F110F20 = 1 /\
  option_map fst (value_of (GetProcessorModelFamily
                              (mkWorld (fun _ => mkRegs 0x0F110F20 0 0 0) None (fun _ => 0))))
  <> Some (Z.lor (base_model 0x0F110F20) (Z.shiftl (ext_model 0x0F110F20) 4)).
Proof. repeat split; vm_compute; discriminate. Qed.

(** C7, amended: the test is made on the decoded family.  If the base family is
    below 6 (the decoded family is then the base family) the decoded model is
    the base model nibble; if the base family is at least 6 and the decoded
    family is at least 6 (always so for base families 6 to 14, and for 0x0F
    unless the extended-family field lies in 0xF1..0xF6) the decoded model is
    the base nibble with the extended-model nibble as its high nibble; if the
    decoded family is below 6 the model is the base nibble. *)
Theorem model_extended_by_decoded_family (w : world) :
  let eax := r_eax (cpuid w 0x01) in
  let model := option_map fst (value_of (GetProcessorModelFamily w)) in
  (base_family eax < 6 -> model = Some (base_model eax))
  /\ (6 <= base_family eax -> 6 <= decode_family eax ->
      model = Some (Z.lor (base_model eax) (Z.shiftl (ext_model eax) 4)))
  /\ (6 <= base_family eax < 0x0f -> 6 <= decode_family eax)
  /\ (base_family eax = 0x0f ->
      (6 <= decode_family eax <-> ~ 0xF1 <= ext_family eax <= 0xF6))
  /\ (decode_family eax < 6 -> model = Some (base_model eax)).
Proof.
  intros eax model. subst model. rewrite GetProcessorModelFamily_value. cbn [option_map snd fst].
  fold eax. rewrite decode_model_eq.
  pose proof (base_family_range eax) as Hb.
  pose proof (ext_family_range eax) as He.
  assert (Hwrap : 256 <= 0x0f + ext_family eax ->
                  (0x0f + ext_family eax) mod 256 = 0x0f + ext_family eax - 256).
  { intros H. symmetry. apply Z.mod_unique with (q := 1); lia. }
  split; [|split; [|split; [|split]]].
  - intros H. rewrite decode_family_base by lia.
    destruct (6 <=? base_family eax) eqn:E; [apply Z.leb_le in E; lia | reflexivity].
  - intros _ H. apply Z.leb_le in H. rewrite H. f_equal.
    apply nibbles_add_lor; [apply base_model_range | apply ext_model_range].
  - intros H. rewrite decode_family_base by lia. lia.
  - intros H. rewrite decode_family_eq, H. simpl (0x0f =? 0x0f).
    destruct (Z_le_gt_dec (ext_family eax) 0xF0) as [Hs|Hs].
    + rewrite Z.mod_small by lia. lia.
    + rewrite Hwrap by lia. lia.
  - intros H. destruct (6 <=? decode_family eax) eqn:E; [apply Z.leb_le in E; lia | reflexivity].
Qed.

Lemma model_extended_by_decoded_family_witness :
  option_map fst (value_of (GetProcessorModelFamily
                              (mkWorld (fun _ => mkRegs 0x000506E3 0 0 0) None (fun _ => 0))))
  = Some 0x5E
  /\ option_map fst (value_of (GetProcessorModelFamily
                              (mkWorld (fun _ => mkRegs 0x00010520 0 0 0) None (fun _ => 0))))
  = Some 0x2.
Proof.
  split.
  - apply (proj1 (proj2 (model_extended_by_decoded_family
                    (mkWorld (fun _ => mkRegs 0x000506E3 0 0 0) None (fun _ => 0)))));
      vm_compute; discriminate.
  - apply (proj1 (model_extended_by_decoded_family
                    (mkWorld (fun _ => mkRegs 0x00010520 0 0 0) None (fun _ => 0))));
      vm_compute; reflexivity.
Defined.

(** ** Model tables *)

Lemma mem_models (l : list Z) (model : Z) :
  existsb (Z.eqb model) l = true <-> In model l.
Proof.
  rewrite existsb_exists. split.
  - intros [x [Hin Heq]]. apply Z.eqb_eq in Heq. subst. exact Hin.
  - intros Hin. exists model. split; [exact Hin | apply Z.eqb_refl].
Qed.

Lemma bus_mult_existsb (model : Z) :
  bus_mult model = if existsb (Z.eqb model) legacy_models then 133 else 100.
Proof.
  unfold bus_mult, IsModelWestmere, IsModelNehalem, legacy_models. cbn [existsb].
  repeat match goal with |- context [model =? ?c] => destruct (model =? c) end;
    reflexivity.
Qed.

Lemma crystal_table_existsb (model : Z) :
  (crystal_table model =? 0) = negb (existsb (Z.eqb model) crystal_models).
Proof.
  unfold crystal_table, crystal_models. cbn [existsb].
  repeat match goal with |- context [model =? ?c] => destruct (model =? c) end;
    reflexivity.
Qed.

(** A duplicate-free list of codes that all belong to [l] is no longer than [l]. *)
Lemma covered_length (codes l : list Z) :
  NoDup codes -> (forall c, In c codes -> In c l) ->
  (List.length codes <= List.length l)%nat.
Proof. intros Hnd Hincl. apply NoDup_incl_length; assumption. Qed.

Lemma NoDup_legacy_models : NoDup legacy_models.
Proof.
  unfold legacy_models.
  repeat (constructor; [cbn; intros H; repeat (destruct H as [H|H]; [discriminate H|]); exact H|]).
  constructor.
Qed.

Lemma NoDup_crystal_models : NoDup crystal_models.
Proof.
  unfold crystal_models.
  repeat (constructor; [cbn; intros H; repeat (destruct H as [H|H]; [discriminate H|]); exact H|]).
  constructor.
Qed.

(** C4, as stated, fails: no set of six model codes is the set of models that
    select multiplier 133 with every other model selecting 100. *)
Lemma no_six_legacy_models :
  ~ exists l : list Z,
      List.length l = 6%nat /\
      forall model, (In model l -> bus_mult model = 133) /\
                    (~ In model l -> bus_mult model = 100).
Proof.
  intros [l [Hlen H]].
  assert (Hcov : forall c, In c legacy_models -> In c l).
  { intros c Hc.
    destruct (in_dec Z.eq_dec c l) as [Hin|Hout]; [exact Hin|].
    apply (proj2 (H c)) in Hout.
    rewrite bus_mult_existsb in Hout.
    apply mem_models in Hc. rewrite Hc in Hout. discriminate Hout. }
  pose proof (covered_length legacy_models l NoDup_legacy_models Hcov) as Hle.
  rewrite Hlen in Hle. cbn in Hle. lia.
Qed.

(** C4, amended: exactly seven model codes select multiplier 133, the three
    Westmere codes 0x25, 0x2C, 0x2F and the four Nehalem codes 0x1E, 0x1F,
    0x1A, 0x2E; every other model value selects multiplier 100. *)
Theorem bus_mult_seven_legacy_models :
  legacy_models = [0x25; 0x2C; 0x2F; 0x1E; 0x1F; 0x1A; 0x2E]
  /\ NoDup legacy_models
  /\ forall model,
       (In model legacy_models -> bus_mult model = 133)
       /\ (~ In model legacy_models -> bus_mult model = 100).
Proof.
  split; [reflexivity|]. split; [exact NoDup_legacy_models|].
  intros model. rewrite bus_mult_existsb. split.
  - intros Hin. apply mem_models in Hin. rewrite Hin. reflexivity.
  - intros Hout. destruct (existsb (Z.eqb model) legacy_models) eqn:E; [|reflexivity].
    apply mem_models in E. contradiction.
Qed.

Lemma bus_mult_seven_legacy_models_witness :
  bus_mult 0x1F = 133 /\ bus_mult 0x5E = 100.
Proof.
  split.
  - apply (proj1 (proj2 (proj2 bus_mult_seven_legacy_models) 0x1F)).
    cbn. right. right. right. right. left. reflexivity.
  - apply (proj2 (proj2 (proj2 bus_mult_seven_legacy_models) 0x5E)).
    cbn. intros H. repeat (destruct H as [H|H]; [discriminate H|]). exact H.
Defined.

(** ** Tier 1 *)

Section Tier1.

Variables (w : world) (model maxLevel : Z).

Let eax := r_eax (cpuid w 0x15).
Let ebx := r_ebx (cpuid w 0x15).
Let ecx := r_ecx (cpuid w 0x15).

(** The trace line that follows the query. *)
Let header : list event :=
  [EvCpuid 0x15;
   EvPrint "CPUID(0x15): eax_crystal: {} ebx_tsc: {} ecx_crystal_hz: {}, edx {}\n"
           [AInt eax; AInt ebx; AInt ecx; AInt (r_edx (cpuid w 0x15))]].

Lemma tier1_unsupported : maxLevel < 0x15 -> tier1 w model maxLevel = ([], Done 0).
Proof.
  intros H. unfold tier1.
  destruct (0x15 <=? maxLevel) eqn:E; [apply Z.leb_le in E; lia | reflexivity].
Qed.

(** The block above level 0x15, with the binds carried out. *)
Lemma tier1_supported :
  0x15 <= maxLevel ->
  let c := crystal_hz model ecx in
  let q := u64 (c * ebx) / eax in
  tier1 w model maxLevel =
  if ebx =? 0 then (header, Done 0)
  else if c =? 0 then (header, Done 0)
  else if eax =? 0
  then (header ++ [EvDiv (u64 (c * ebx)) eax], Undefined)
  else (header ++ [EvDiv (u64 (c * ebx)) eax; EvDiv q 1000000;
                   EvPrint "TSC: {} MHz ({} Hz * {} / {} / 1000000)\n"
                           [AInt (q / 1000000); AInt c; AInt ebx; AInt eax]],
        Done q).
Proof.
  intros Hl c q. unfold tier1. apply Z.leb_le in Hl. rewrite Hl.
  unfold get_cpuid, print, udiv64, emit, ret, undefined, bind.
  fold eax ebx ecx c.
  destruct (ebx =? 0); [reflexivity|].
  destruct (c =? 0); [reflexivity|].
  destruct (eax =? 0); reflexivity.
Qed.

Lemma tier1_zero_numerator :
  0x15 <= maxLevel -> ebx = 0 -> tier1 w model maxLevel = (header, Done 0).
Proof.
  intros Hl Hb. rewrite tier1_supported by exact Hl.
  apply Z.eqb_eq in Hb. rewrite Hb. reflexivity.
Qed.

Lemma tier1_no_crystal :
  0x15 <= maxLevel -> crystal_hz model ecx = 0 -> tier1 w model maxLevel = (header, Done 0).
Proof.
  intros Hl Hc. rewrite tier1_supported by exact Hl.
  apply Z.eqb_eq in Hc. rewrite Hc.
  destruct (ebx =? 0); reflexivity.
Qed.

(** With a numerator and a crystal frequency the quotient is formed, whatever
    the denominator. *)
Lemma tier1_divides :
  0x15 <= maxLevel -> ebx <> 0 -> crystal_hz model ecx <> 0 ->
  let c := crystal_hz model ecx in
  let q := u64 (c * ebx) / eax in
  tier1 w model maxLevel =
  if eax =? 0
  then (header ++ [EvDiv (u64 (c * ebx)) eax], Undefined)
  else (header ++ [EvDiv (u64 (c * ebx)) eax; EvDiv q 1000000;
                   EvPrint "TSC: {} MHz ({} Hz * {} / {} / 1000000)\n"
                           [AInt (q / 1000000); AInt c; AInt ebx; AInt eax]],
        Done q).
Proof.
  intros Hl Hb Hc c q. rewrite tier1_supported by exact Hl.
  apply Z.eqb_neq in Hb, Hc. rewrite Hb, Hc. reflexivity.
Qed.

Lemma tier1_no_msr_access : no_msr_access (trace_of (tier1 w model maxLevel)) = true.
Proof.
  destruct (Z_lt_ge_dec maxLevel 0x15) as [Hl|Hl].
  { rewrite tier1_unsupported by exact Hl. reflexivity. }
  destruct (Z.eq_dec ebx 0) as [Hb|Hb].
  { rewrite tier1_zero_numerator by (lia || exact Hb). reflexivity. }
  destruct (Z.eq_dec (crystal_hz model ecx) 0) as [Hc|Hc].
  { rewrite tier1_no_crystal by (lia || exact Hc). reflexivity. }
  rewrite tier1_divides by (lia || assumption).
  destruct (eax =? 0); reflexivity.
Qed.

(** A zero denominator reaches the division. *)
Lemma tier1_zero_denominator :
  0x15 <= maxLevel -> ebx <> 0 -> crystal_hz model ecx <> 0 -> eax = 0 ->
  value_of (tier1 w model maxLevel) = None
  /\ In (EvDiv (u64 (crystal_hz model ecx * ebx)) 0) (trace_of (tier1 w model maxLevel)).
Proof.
  intros Hl Hb Hc Ha. rewrite tier1_divides by assumption.
  apply Z.eqb_eq in Ha. rewrite Ha. apply Z.eqb_eq in Ha.
  split; [reflexivity|].
  unfold trace_of. cbn [fst]. apply in_or_app. right. left. rewrite Ha. reflexivity.
Qed.

End Tier1.

(** C8: when CPUID(0x15) reports numerator [ebx = 0], tier 1 yields zero
    whatever the denominator, the reported crystal frequency, the model and
    the level, and its trace holds no division. *)
Theorem tier1_zero_numerator_yields_zero (w : world) (model maxLevel : Z) :
  r_ebx (cpuid w 0x15) = 0 ->
  value_of (tier1 w model maxLevel) = Some 0
  /\ no_division (trace_of (tier1 w model maxLevel)) = true.
Proof.
  intros Hb.
  destruct (Z_lt_ge_dec maxLevel 0x15) as [Hl|Hl].
  - rewrite tier1_unsupported by exact Hl. split; reflexivity.
  - rewrite tier1_zero_numerator by (lia || exact Hb). split; reflexivity.
Qed.

Lemma tier1_zero_numerator_yields_zero_witness :
  value_of (tier1 (host (GenuineIntel 0x16) (mkRegs 0 0 0 0) (mkRegs 0 0 24000000 0) None)
                  0x5E 0x16) = Some 0
  /\ no_division
       (trace_of (tier1 (host (GenuineIntel 0x16) (mkRegs 0 0 0 0) (mkRegs 0 0 24000000 0) None)
                        0x5E 0x16)) = true.
Proof.
  apply (tier1_zero_numerator_yields_zero
           (host (GenuineIntel 0x16) (mkRegs 0 0 0 0) (mkRegs 0 0 24000000 0) None)
           0x5E 0x16).
  reflexivity.
Defined.

(** C1 fails on the code: with a crystal frequency and a non-zero numerator, a
    zero denominator is used as the divisor of the 64-bit division; tier 1
    does not end in failure but in the undefined division. *)
Theorem zero_denominator_is_divided_by :
  r_eax (cpuid host_zero_denominator 0x15) = 0
  /\ r_ebx (cpuid host_zero_denominator 0x15) = 100
  /\ r_ecx (cpuid host_zero_denominator 0x15) = 24000000
  /\ tier1 host_zero_denominator 0x5E 0x16
     = ([EvCpuid 0x15;
         EvPrint "CPUID(0x15): eax_crystal: {} ebx_tsc: {} ecx_crystal_hz: {}, edx {}\n"
                 [AInt 0; AInt 100; AInt 24000000; AInt 0];
         EvDiv 2400000000 0],
        Undefined)
  /\ value_of (GetTscHz host_zero_denominator 0x5E 0x16) = None.
Proof. repeat split; reflexivity. Qed.

(** C3: when tier 1 produces a non-zero frequency, [GetTscHz] returns exactly
    that value and does nothing beyond tier 1: its trace is tier 1's trace and
    holds no open, read or close of the MSR device. *)
Theorem tier1_result_wins (w : world) (model maxLevel v : Z) :
  value_of (tier1 w model maxLevel) = Some v -> v <> 0 ->
  value_of (GetTscHz w model maxLevel) = Some v
  /\ trace_of (GetTscHz w model maxLevel) = trace_of (tier1 w model maxLevel)
  /\ no_msr_access (trace_of (GetTscHz w model maxLevel)) = true.
Proof.
  intros Hv Hnz.
  assert (Heq : GetTscHz w model maxLevel = tier1 w model maxLevel).
  { unfold GetTscHz. destruct (tier1 w model maxLevel) as [t [a|]]; [|discriminate Hv].
    injection Hv as ->. unfold bind. apply Z.eqb_neq in Hnz. rewrite Hnz.
    unfold ret. rewrite app_nil_r. reflexivity. }
  rewrite Heq. split; [exact Hv|]. split; [reflexivity|].
  apply tier1_no_msr_access.
Qed.

Lemma tier1_result_wins_witness :
  value_of (GetTscHz host_skylake 0x5E 0x16) = Some 1200000000
  /\ trace_of (GetTscHz host_skylake 0x5E 0x16) = trace_of (tier1 host_skylake 0x5E 0x16)
  /\ no_msr_access (trace_of (GetTscHz host_skylake 0x5E 0x16)) = true.
Proof.
  apply (tier1_result_wins host_skylake 0x5E 0x16 1200000000).
  - reflexivity.
  - discriminate.
Defined.

(** C5, as stated, fails: no set of four model codes is the set of models the
    table resolves, with every other model left at zero. *)
Lemma no_four_crystal_models :
  ~ exists l : list Z,
      List.length l = 4%nat /\
      forall model, (In model l -> crystal_hz model 0 <> 0) /\
                    (~ In model l -> crystal_hz model 0 = 0).
Proof.
  intros [l [Hlen H]].
  assert (Hcov : forall c, In c crystal_models -> In c l).
  { intros c Hc.
    destruct (in_dec Z.eq_dec c l) as [Hin|Hout]; [exact Hin|].
    apply (proj2 (H c)) in Hout. unfold crystal_hz in Hout. cbn [Z.eqb] in Hout.
    apply Z.eqb_eq in Hout. rewrite crystal_table_existsb in Hout.
    apply mem_models in Hc. rewrite Hc in Hout. discriminate Hout. }
  pose proof (covered_length crystal_models l NoDup_crystal_models Hcov) as Hle.
  rewrite Hlen in Hle. cbn in Hle. lia.
Qed.

(** C5, amended: when CPUID(0x15) reports [ecx = 0], the table resolves five
    model codes: 0x4E and 0x5E to 24.0 MHz, 0x5F to 25.0 MHz, 0x5C and 0x7A to
    19.2 MHz; every other model code is left at zero and tier 1 yields zero
    for it. *)
Theorem crystal_table_five_models :
  crystal_models = [0x4E; 0x5E; 0x5F; 0x5C; 0x7A]
  /\ crystal_hz 0x4E 0 = 24000000
  /\ crystal_hz 0x5E 0 = 24000000
  /\ crystal_hz 0x5F 0 = 25000000
  /\ crystal_hz 0x5C 0 = 19200000
  /\ crystal_hz 0x7A 0 = 19200000
  /\ forall (w : world) (model maxLevel : Z),
       r_ecx (cpuid w 0x15) = 0 -> ~ In model crystal_models ->
       crystal_hz model (r_ecx (cpuid w 0x15)) = 0
       /\ value_of (tier1 w model maxLevel) = Some 0.
Proof.
  repeat (split; [reflexivity|]).
  intros w model maxLevel Hc Hout.
  assert (Hz : crystal_hz model (r_ecx (cpuid w 0x15)) = 0).
  { rewrite Hc. unfold crystal_hz. cbn [Z.eqb]. apply Z.eqb_eq.
    rewrite crystal_table_existsb.
    destruct (existsb (Z.eqb model) crystal_models) eqn:E; [|reflexivity].
    apply mem_models in E. contradiction. }
  split; [exact Hz|].
  destruct (Z_lt_ge_dec maxLevel 0x15) as [Hl|Hl].
  - rewrite tier1_unsupported by exact Hl. reflexivity.
  - rewrite tier1_no_crystal by (lia || exact Hz). reflexivity.
Qed.

Lemma crystal_table_five_models_witness :
  crystal_hz 0x3A (r_ecx (cpuid host_ratio_only 0x15)) = 0
  /\ value_of (tier1 host_ratio_only 0x3A 0x16) = Some 0.
Proof.
  apply (proj2 (proj2 (proj2 (proj2 (proj2 (proj2 crystal_table_five_models)))))
           host_ratio_only 0x3A 0x16).
  - reflexivity.
  - cbn. intros H. repeat (destruct H as [H|H]; [discriminate H|]). exact H.
Defined.

(** ** Tier 2 *)

Lemma le_decode_bound (bs : list byte) :
  0 <= le_decode bs < 2 ^ (8 * Z.of_nat (List.length bs)).
Proof.
  induction bs as [|b bs IH].
  - cbn. lia.
  - cbn [le_decode fold_right List.length]. fold (le_decode bs).
    replace (8 * Z.of_nat (S (List.length bs))) with (8 + 8 * Z.of_nat (List.length bs)) by lia.
    rewrite Z.pow_add_r by lia. change (2 ^ 8) with 256.
    pose proof (Byte.to_N_bounded b) as Hb.
    assert (0 <= Z.of_N (Byte.to_N b) <= 255) by lia.
    nia.
Qed.

(** A complete read delivers the little-endian value of the eight bytes. *)
Lemma ReadMsr_complete (w : world) (msr : Z) dev (bs : list byte) :
  msr_dev w = Some dev -> dev msr = Some bs -> List.length bs = 8%nat ->
  ReadMsr w msr 0 = ([EvOpen "/dev/cpu/0/msr"; EvPread msr; EvClose], Done (true, le_decode bs)).
Proof.
  intros Hdev Hrd Hlen. unfold ReadMsr. rewrite Hdev, Hrd.
  rewrite firstn_all2 by lia. rewrite Hlen.
  unfold store_low. rewrite Hlen.
  pose proof (le_decode_bound bs) as Hb. rewrite Hlen in Hb.
  change (8 * Z.of_nat 8) with 64 in *.
  rewrite Z.div_0_l by lia. rewrite Z.mul_0_r, Z.add_0_r.
  rewrite u64_small by exact Hb. reflexivity.
Qed.

(** Without the device nothing is read. *)
Lemma ReadMsr_no_device (w : world) (msr val : Z) :
  msr_dev w = None -> ReadMsr w msr val = ([EvOpen "/dev/cpu/0/msr"], Done (false, val)).
Proof. intros H. unfold ReadMsr. rewrite H. reflexivity. Qed.

Lemma ratio_scaling_exact (mult reg : Z) :
  mult = 100 \/ mult = 133 -> 0 <= reg < 256 ->
  double_to_u64 (dmul (int_to_double (reg * mult)) d1E6) = ([], Done (reg * mult * 1000000)).
Proof.
  intros Hm Hr.
  assert (H : scaled_exactly mult reg = true).
  { destruct Hm as [-> | ->];
      apply (forall_below (scaled_exactly _) 256); try (vm_compute; reflexivity);
      simpl; lia. }
  unfold scaled_exactly in H.
  destruct (double_to_u64 _) as [[|e t] [z|]]; try discriminate H.
  apply Z.eqb_eq in H. rewrite H. reflexivity.
Qed.

Lemma bus_mult_cases (model : Z) : bus_mult model = 100 \/ bus_mult model = 133.
Proof.
  unfold bus_mult. destruct (IsModelWestmere model || IsModelNehalem model); auto.
Qed.

Lemma tier2_complete (w : world) (model : Z) dev (bs : list byte) :
  msr_dev w = Some dev -> dev 0xCE = Some bs -> List.length bs = 8%nat ->
  le_decode bs <> 0 ->
  tier2 w model =
  ([EvOpen "/dev/cpu/0/msr"; EvPread 0xCE; EvClose],
   Done (Z.land (Z.shiftr (le_decode bs) 8) 0xff * bus_mult model * 1000000)).
Proof.
  intros Hdev Hrd Hlen Hnz. unfold tier2.
  rewrite (ReadMsr_complete w 0xCE dev bs Hdev Hrd Hlen).
  unfold bind. apply Z.eqb_neq in Hnz. rewrite Hnz. cbn [andb negb].
  rewrite u8_small by apply land_0xff.
  rewrite ratio_scaling_exact by (apply bus_mult_cases || apply land_0xff).
  reflexivity.
Qed.

(** C9: when tier 1 fails and the read of MSR 0xCE succeeds with a non-zero
    value, the discovered frequency is exactly the ratio field in bits 8-15 of
    the value times the selected bus multiplier times 1,000,000; ratio byte 30
    with multiplier 100 gives 3,000,000,000 Hz. *)
Theorem tier2_frequency (w : world) (model maxLevel : Z) dev (bs : list byte) :
  value_of (tier1 w model maxLevel) = Some 0 ->
  msr_dev w = Some dev -> dev 0xCE = Some bs -> List.length bs = 8%nat ->
  le_decode bs <> 0 ->
  let value := le_decode bs in
  let ratio := Z.land (Z.shiftr value 8) 0xff in
  value_of (GetTscHz w model maxLevel) = Some (ratio * bus_mult model * 1000000)
  /\ (ratio = 30 -> bus_mult model = 100 ->
      value_of (GetTscHz w model maxLevel) = Some 3000000000).
Proof.
  intros Ht1 Hdev Hrd Hlen Hnz value ratio.
  assert (Hv : value_of (GetTscHz w model maxLevel)
               = Some (ratio * bus_mult model * 1000000)).
  { unfold GetTscHz. destruct (tier1 w model maxLevel) as [t [a|]]; [|discriminate Ht1].
    injection Ht1 as ->. unfold bind. cbn [Z.eqb].
    rewrite (tier2_complete w model dev bs Hdev Hrd Hlen Hnz). reflexivity. }
  split; [exact Hv|].
  intros Hr Hm. rewrite Hv, Hr, Hm. reflexivity.
Qed.

Lemma tier2_frequency_witness :
  value_of (GetTscHz host_msr 0x3A 0x0D) = Some 3000000000.
Proof.
  refine (proj2 (tier2_frequency host_msr 0x3A 0x0D
                   (fun _ => Some [x00; x1e; x00; x00; x00; x00; x00; x00]%byte)
                   [x00; x1e; x00; x00; x00; x00; x00; x00]%byte
                   _ _ _ _ _) _ _).
  - reflexivity.
  - reflexivity.
  - reflexivity.
  - reflexivity.
  - vm_compute. discriminate.
  - reflexivity.
  - reflexivity.
Defined.

(** For 32-bit registers the 64-bit product of tier 1 does not wrap. *)
Lemma tier1_product_exact (w : world) (model : Z) :
  wf_regs (cpuid w 0x15) ->
  let c := crystal_hz model (r_ecx (cpuid w 0x15)) in
  u64 (c * r_ebx (cpuid w 0x15)) = c * r_ebx (cpuid w 0x15).
Proof.
  intros [_ [Hb [Hc _]]] c.
  assert (Hcr : 0 <= c < 2 ^ 32).
  { subst c. unfold crystal_hz. destruct (r_ecx (cpuid w 0x15) =? 0); [|exact Hc].
    unfold crystal_table.
    repeat match goal with |- context [model =? ?k] => destruct (model =? k) end;
      cbn; lia. }
  apply u64_small. change (2 ^ 64) with (2 ^ 32 * 2 ^ 32). nia.
Qed.

(** ** The sampling loop *)

Lemma duration_of_zero_frequency (diff : Z) : is_finite (duration_of diff 0) = false.
Proof.
  unfold duration_of, ddiv. change (int_to_double 0) with (S754_zero false).
  destruct (int_to_double diff); reflexivity.
Qed.

Lemma sample_trace (w : world) (info : ProcessorInfo) (k : nat) :
  exists t1 t t2,
    sample w info k =
    ([EvRdtsc k; EvRdtsc (S k); EvPrint "ticks: {}\n" [AInt t]; EvSleep 1000;
      EvRdtsc (S (S k)); EvPrint "ticks for 1 second: {}\n" [AInt (u64 (t2 - t1))];
      EvPrint "duration: {:f}\n" [ADbl (duration_of (u64 (t2 - t1)) (tscHz info))]],
     Done tt).
Proof. do 3 eexists. reflexivity. Qed.

(** C2 fails on the code: a zero frequency is the divisor of the duration
    computation, whose result is then never a finite number; on a host where
    discovery ends at zero the loop prints an infinite duration. *)
Theorem zero_frequency_is_divided_by :
  (forall (w : world) (info : ProcessorInfo) (k : nat),
      exists t d,
        trace_of (sample w info k) = t ++ [EvPrint "duration: {:f}\n" [ADbl d]]
        /\ (if tscHz info =? 0 then is_finite d = false else True))
  /\ value_of (GetTscHz host_unprivileged 0x3A 0x0D) = Some 0
  /\ option_map (fun r => tscHz (snd r)) (value_of (GetProcessorInfo host_unprivileged)) = Some 0
  /\ last (trace_of (main host_unprivileged 1)) (EvSleep 0)
     = EvPrint "duration: {:f}\n" [ADbl (S754_infinity false)].
Proof.
  split; [|repeat split; vm_compute; reflexivity].
  intros w info k. destruct (sample_trace w info k) as [t1 [t [t2 H]]].
  rewrite H. unfold trace_of. cbn [fst].
  eexists. exists (duration_of (u64 (t2 - t1)) (tscHz info)).
  split.
  - change (?a :: ?b :: ?c :: ?d :: ?e :: ?f :: [?g]) with ([a; b; c; d; e; f] ++ [g]).
    reflexivity.
  - destruct (tscHz info =? 0) eqn:E; [|exact I].
    apply Z.eqb_eq in E. rewrite E. apply duration_of_zero_frequency.
Qed.

(** * Further properties of the program *)

(** ** [ReadMsr] *)

(** Eight bytes overwrite the whole 64-bit object. *)
Lemma store_low_full (val : Z) (bs : list byte) :
  List.length bs = 8%nat -> store_low val bs = le_decode bs.
Proof.
  intros Hlen. unfold store_low. rewrite Hlen.
  pose proof (le_decode_bound bs) as Hb. rewrite Hlen in Hb.
  change (8 * Z.of_nat 8) with 64 in *.
  unfold u64. rewrite (Z.mul_comm (2 ^ 64)), Z.mod_add by lia.
  apply Z.mod_small. exact Hb.
Qed.

Lemma firstn_8_length (bs : list byte) :
  (8 <=? List.length bs)%nat = true -> List.length (firstn 8 bs) = 8%nat.
Proof. intros H. apply Nat.leb_le in H. rewrite length_firstn. lia. Qed.

(** [ReadMsr] in closed form. *)
Lemma ReadMsr_eq (w : world) (msr val : Z) :
  ReadMsr w msr val =
  match msr_dev w with
  | Some dev =>
      ([EvOpen "/dev/cpu/0/msr"; EvPread msr; EvClose],
       Done match dev msr with
            | Some bs => (if (8 <=? List.length bs)%nat then true else false,
                          store_low val (firstn 8 bs))
            | None => (false, val)
            end)
  | None => ([EvOpen "/dev/cpu/0/msr"], Done (false, val))
  end.
Proof.
  unfold ReadMsr. destruct (msr_dev w) as [dev|]; [|reflexivity].
  destruct (dev msr) as [bs|]; [|reflexivity].
  cbn [bind emit ret app]. do 3 f_equal.
  rewrite length_firstn.
  destruct (8 <=? List.length bs)%nat eqn:E.
  - apply Nat.leb_le in E. rewrite Nat.min_l by exact E. reflexivity.
  - apply Nat.leb_gt in E. rewrite Nat.min_r by lia.
    destruct (Z.of_nat (List.length bs) =? 8) eqn:E8; [apply Z.eqb_eq in E8; lia | reflexivity].
Qed.

(** X1: [ReadMsr] reports success exactly when the device opens and the read
    at the register offset delivers all eight bytes, and [*val] is then the
    little-endian value of those bytes whatever it held before; when the
    device does not open or the read returns an error, [*val] is untouched. *)
Theorem ReadMsr_success_iff_complete_read (w : world) (msr val : Z) :
  (forall v, value_of (ReadMsr w msr val) = Some (true, v) <-> msr_value w msr = Some v)
  /\ (msr_dev w = None \/ (exists dev, msr_dev w = Some dev /\ dev msr = None) ->
      value_of (ReadMsr w msr val) = Some (false, val)).
Proof.
  rewrite ReadMsr_eq. unfold msr_value. split.
  - intros v. destruct (msr_dev w) as [dev|]; [|cbn; split; discriminate].
    destruct (dev msr) as [bs|]; [|cbn; split; discriminate].
    unfold value_of. cbn [snd].
    destruct (8 <=? List.length bs)%nat eqn:E.
    + rewrite store_low_full by (apply firstn_8_length; exact E).
      split; intros H; injection H as <-; reflexivity.
    + split; discriminate.
  - intros [Hn | [dev [Hd Hr]]].
    + rewrite Hn. reflexivity.
    + rewrite Hd, Hr. reflexivity.
Qed.

Lemma ReadMsr_success_iff_complete_read_witness :
  value_of (ReadMsr host_msr 0xCE 0x1234) = Some (true, 0x1e00)
  /\ value_of (ReadMsr host_unprivileged 0xCE 0x1234) = Some (false, 0x1234).
Proof.
  split.
  - apply (proj1 (ReadMsr_success_iff_complete_read host_msr 0xCE 0x1234) 0x1e00).
    reflexivity.
  - apply (proj2 (ReadMsr_success_iff_complete_read host_unprivileged 0xCE 0x1234)).
    left. reflexivity.
Defined.

(** X2: [ReadMsr] always finishes; it opens the device once, and it reads at
    the register offset and closes the descriptor exactly when the open
    succeeded: opens that succeed and closes balance, on success and on
    failure of the read alike. *)
Theorem ReadMsr_closes_what_it_opens (w : world) (msr val : Z) :
  value_of (ReadMsr w msr val) <> None
  /\ trace_of (ReadMsr w msr val)
     = EvOpen "/dev/cpu/0/msr"
       :: match msr_dev w with Some _ => [EvPread msr; EvClose] | None => [] end
  /\ count is_close (trace_of (ReadMsr w msr val)) = match msr_dev w with Some _ => 1%nat | None => 0%nat end.
Proof.
  rewrite ReadMsr_eq. destruct (msr_dev w) as [dev|]; cbn.
  - repeat split; try reflexivity. destruct (dev msr); discriminate.
  - repeat split; try reflexivity. discriminate.
Qed.

(** ** Tier 2 and [GetTscHz] as a whole *)

Lemma tier2_eq (w : world) (model : Z) :
  tier2 w model =
  (trace_of (ReadMsr w 0xCE 0),
   Done match msr_value w 0xCE with
        | Some value => ratio_of value * bus_mult model * 1000000
        | None => 0
        end).
Proof.
  unfold tier2, msr_value. rewrite ReadMsr_eq.
  destruct (msr_dev w) as [dev|]; [|reflexivity].
  destruct (dev 0xCE) as [bs|]; [|reflexivity].
  cbn [bind trace_of fst].
  destruct (8 <=? List.length bs)%nat eqn:E; [|reflexivity].
  rewrite store_low_full by (apply firstn_8_length; exact E).
  cbn [andb]. unfold ratio_of.
  destruct (le_decode (firstn 8 bs) =? 0) eqn:Ez.
  - apply Z.eqb_eq in Ez. rewrite Ez. reflexivity.
  - cbn [negb]. rewrite u8_small by apply land_0xff.
    rewrite ratio_scaling_exact by (apply bus_mult_cases || apply land_0xff).
    reflexivity.
Qed.

Lemma ratio_of_range (value : Z) : 0 <= ratio_of value < 256.
Proof. apply land_0xff. Qed.

(** X3: tier 2 never runs into undefined behaviour.  It yields the ratio
    field of a complete 8-byte read times the bus multiplier times 1,000,000,
    and zero when the device does not open or the read is in error or short;
    the result is a multiple of 1,000,000 no larger than 33,915,000,000. *)
Theorem tier2_always_finishes (w : world) (model : Z) :
  let hz := match msr_value w 0xCE with
            | Some value => ratio_of value * bus_mult model * 1000000
            | None => 0
            end in
  value_of (tier2 w model) = Some hz
  /\ 0 <= hz <= 33915000000
  /\ hz mod 1000000 = 0.
Proof.
  intros hz. rewrite tier2_eq. split; [reflexivity|].
  subst hz. destruct (msr_value w 0xCE) as [value|]; [|split; [lia | reflexivity]].
  pose proof (ratio_of_range value) as Hr.
  split.
  - destruct (bus_mult_cases model) as [-> | ->]; lia.
  - apply Z.mod_mul. lia.
Qed.

Lemma GetTscHz_eq (w : world) (model maxLevel : Z) :
  GetTscHz w model maxLevel =
  match tier1 w model maxLevel with
  | (t, Done v) =>
      if v =? 0 then (t ++ trace_of (tier2 w model), snd (tier2 w model)) else (t, Done v)
  | (t, Undefined) => (t, Undefined)
  end.
Proof.
  unfold GetTscHz, bind. destruct (tier1 w model maxLevel) as [t [v|]]; [|reflexivity].
  destruct (v =? 0).
  - destruct (tier2 w model). reflexivity.
  - unfold ret. rewrite app_nil_r. reflexivity.
Qed.

Lemma GetTscHz_undefined_tier1 (w : world) (model maxLevel : Z) :
  value_of (GetTscHz w model maxLevel) = None <-> value_of (tier1 w model maxLevel) = None.
Proof.
  rewrite GetTscHz_eq. destruct (tier1 w model maxLevel) as [t [v|]].
  - destruct (v =? 0).
    + rewrite tier2_eq. cbn. split; discriminate.
    + cbn. split; discriminate.
  - cbn. split; reflexivity.
Qed.

(** X4: [GetTscHz] runs into undefined behaviour in exactly one situation:
    level 0x15 is supported, CPUID(0x15) reports a non-zero numerator, a
    crystal frequency is reported or found in the table, and the denominator
    is zero.  In every other situation it returns a value. *)
Theorem GetTscHz_undefined_iff_zero_denominator (w : world) (model maxLevel : Z) :
  value_of (GetTscHz w model maxLevel) = None
  <-> (0x15 <= maxLevel
       /\ r_ebx (cpuid w 0x15) <> 0
       /\ crystal_hz model (r_ecx (cpuid w 0x15)) <> 0
       /\ r_eax (cpuid w 0x15) = 0).
Proof.
  rewrite GetTscHz_undefined_tier1.
  destruct (Z_lt_ge_dec maxLevel 0x15) as [Hl|Hl].
  { rewrite tier1_unsupported by exact Hl. cbn. split; [discriminate | lia]. }
  rewrite tier1_supported by lia.
  destruct (r_ebx (cpuid w 0x15) =? 0) eqn:Eb.
  { apply Z.eqb_eq in Eb. cbn. split; [discriminate | tauto]. }
  destruct (crystal_hz model (r_ecx (cpuid w 0x15)) =? 0) eqn:Ec.
  { apply Z.eqb_eq in Ec. cbn. split; [discriminate | tauto]. }
  apply Z.eqb_neq in Eb, Ec.
  destruct (r_eax (cpuid w 0x15) =? 0) eqn:Ea.
  - apply Z.eqb_eq in Ea. cbn. split; [intros _; repeat split; (lia || assumption) | reflexivity].
  - apply Z.eqb_neq in Ea. cbn. split; [discriminate | tauto].
Qed.

Lemma GetTscHz_undefined_iff_zero_denominator_witness :
  value_of (GetTscHz host_zero_denominator 0x4E 0x15) = None.
Proof.
  apply (proj2 (GetTscHz_undefined_iff_zero_denominator host_zero_denominator 0x4E 0x15)).
  repeat split; try discriminate; reflexivity.
Defined.

Lemma GetTscHz_after_zero (w : world) (model maxLevel : Z) :
  value_of (tier1 w model maxLevel) = Some 0 ->
  GetTscHz w model maxLevel
  = (trace_of (tier1 w model maxLevel) ++ trace_of (ReadMsr w 0xCE 0),
     Done match msr_value w 0xCE with
          | Some value => ratio_of value * bus_mult model * 1000000
          | None => 0
          end).
Proof.
  intros H. rewrite GetTscHz_eq.
  destruct (tier1 w model maxLevel) as [t [v|]]; [|discriminate H].
  injection H as ->. cbn [Z.eqb]. rewrite tier2_eq. reflexivity.
Qed.

(** X5: when tier 1 yields zero, [GetTscHz] continues with the MSR read and
    returns tier 2's result: the scaled ratio field of a complete read, and
    zero (with no further effect than the attempted read) when the device is
    missing or the read is in error or short. *)
Theorem GetTscHz_falls_back_to_msr (w : world) (model maxLevel : Z) :
  value_of (tier1 w model maxLevel) = Some 0 ->
  GetTscHz w model maxLevel
  = (trace_of (tier1 w model maxLevel) ++ trace_of (ReadMsr w 0xCE 0),
     Done match msr_value w 0xCE with
          | Some value => ratio_of value * bus_mult model * 1000000
          | None => 0
          end).
Proof.
  exact (GetTscHz_after_zero w model maxLevel).
Qed.

Lemma GetTscHz_falls_back_to_msr_witness :
  GetTscHz host_ratio_only 0x3A 0x16
  = (trace_of (tier1 host_ratio_only 0x3A 0x16) ++ [EvOpen "/dev/cpu/0/msr"], Done 0).
Proof.
  apply (GetTscHz_falls_back_to_msr host_ratio_only 0x3A 0x16).
  reflexivity.
Defined.

Lemma existsb_app_events (p : event -> bool) (t t' : list event) :
  existsb p (t ++ t') = existsb p t || existsb p t'.
Proof. apply existsb_app. Qed.




Lemma tier1_quotient (w : world) (model maxLevel : Z) :
  wf_regs (cpuid w 0x15) ->
  0x15 <= maxLevel ->
  r_ebx (cpuid w 0x15) <> 0 ->
  crystal_hz model (r_ecx (cpuid w 0x15)) <> 0 ->
  r_eax (cpuid w 0x15) <> 0 ->
  let c := crystal_hz model (r_ecx (cpuid w 0x15)) in
  let q := c * r_ebx (cpuid w 0x15) / r_eax (cpuid w 0x15) in
  value_of (tier1 w model maxLevel) = Some q
  /\ 0 <= q <= c * r_ebx (cpuid w 0x15)
  /\ c * r_ebx (cpuid w 0x15) < 2 ^ 64.
Proof.
  intros Hwf Hl Hb Hc Ha c q.
  pose proof (tier1_product_exact w model Hwf) as Hp. cbv zeta in Hp. fold c in Hp.
  rewrite tier1_divides by assumption.
  apply Z.eqb_neq in Ha. rewrite Ha. apply Z.eqb_neq in Ha.
  cbv zeta. fold c. rewrite Hp. fold q.
  split; [reflexivity|].
  destruct Hwf as [Hea [Heb _]].
  assert (Hprod : 0 <= c * r_ebx (cpuid w 0x15) < 2 ^ 64).
  { rewrite <- Hp. unfold u64. apply Z.mod_pos_bound. lia. }
  split; [|lia]. subst q. split.
  - apply Z.div_pos; lia.
  - apply Z.div_le_upper_bound; [lia|]. nia.
Qed.

(** X7: for 32-bit register values, a supported level, a non-zero numerator,
    an available crystal frequency and a non-zero denominator, tier 1 yields
    exactly [crystal_hz * numerator / denominator]: the 64-bit product does
    not wrap, and the quotient lies between 0 and the product. *)
Theorem tier1_quotient_exact (w : world) (model maxLevel : Z) :
  wf_regs (cpuid w 0x15) ->
  0x15 <= maxLevel ->
  r_ebx (cpuid w 0x15) <> 0 ->
  crystal_hz model (r_ecx (cpuid w 0x15)) <> 0 ->
  r_eax (cpuid w 0x15) <> 0 ->
  let c := crystal_hz model (r_ecx (cpuid w 0x15)) in
  let q := c * r_ebx (cpuid w 0x15) / r_eax (cpuid w 0x15) in
  value_of (tier1 w model maxLevel) = Some q
  /\ 0 <= q <= c * r_ebx (cpuid w 0x15)
  /\ c * r_ebx (cpuid w 0x15) < 2 ^ 64.
Proof. exact (tier1_quotient w model maxLevel). Qed.

Lemma tier1_quotient_exact_witness :
  value_of (tier1 host_skylake 0x5E 0x16) = Some 1200000000.
Proof.
  refine (proj1 (tier1_quotient_exact host_skylake 0x5E 0x16 _ _ _ _ _)).
  - unfold wf_regs. cbn. lia.
  - cbn. lia.
  - discriminate.
  - discriminate.
  - discriminate.
Defined.

(** ** [ReadTsc] and the sampling loop *)

Lemma halves_reassemble (t : Z) :
  Z.lor (u64 (Z.shiftl (u32 (Z.shiftr t 32)) 32)) (u32 t) = u64 t.
Proof.
  unfold u64, u32. apply Z.bits_inj'. intros n Hn.
  rewrite Z.lor_spec.
  rewrite !Z.testbit_mod_pow2 by lia.
  destruct (Z.ltb_spec n 32) as [Hlt|Hge].
  - rewrite Z.shiftl_spec_low by lia.
    replace (n <? 64) with true by (symmetry; apply Z.ltb_lt; lia).
    reflexivity.
  - rewrite Z.shiftl_spec by lia.
    rewrite Z.testbit_mod_pow2 by lia.
    rewrite Z.shiftr_spec by lia.
    replace (n - 32 + 32) with n by lia.
    rewrite orb_false_r.
    destruct (Z.ltb_spec n 64) as [H64|H64].
    + replace (n - 32 <? 32) with true by (symmetry; apply Z.ltb_lt; lia). reflexivity.
    + reflexivity.
Qed.

Lemma ReadTsc_eq (w : world) (k : nat) :
  ReadTsc w k = ([EvRdtsc k], Done (tsc w k mod 2 ^ 64)).
Proof.
  unfold ReadTsc. cbn [bind emit ret app]. rewrite halves_reassemble. reflexivity.
Qed.

(** X8: [ReadTsc] reassembles the counter from its two 32-bit halves without
    loss: it returns the counter value modulo 2^64 (the counter itself when it
    is a 64-bit value), after exactly one [rdtsc]. *)
Theorem ReadTsc_reassembles (w : world) (k : nat) :
  ReadTsc w k = ([EvRdtsc k], Done (tsc w k mod 2 ^ 64))
  /\ (0 <= tsc w k < 2 ^ 64 -> value_of (ReadTsc w k) = Some (tsc w k)).
Proof.
  pose proof (ReadTsc_eq w k) as H.
  split; [exact H|].
  intros Hr. rewrite H. cbn. rewrite Z.mod_small by exact Hr. reflexivity.
Qed.

Lemma ReadTsc_reassembles_witness :
  value_of (ReadTsc host_skylake 5) = Some 15000000000.
Proof.
  apply (proj2 (ReadTsc_reassembles host_skylake 5)).
  cbn. lia.
Defined.

Lemma sample_eq (w : world) (info : ProcessorInfo) (k : nat) :
  sample w info k =
  let t1 := u64 (tsc w k) in
  let t2 := u64 (tsc w (S (S k))) in
  ([EvRdtsc k; EvRdtsc (S k); EvPrint "ticks: {}\n" [AInt (u64 (tsc w (S k)))];
    EvSleep 1000; EvRdtsc (S (S k));
    EvPrint "ticks for 1 second: {}\n" [AInt (u64 (t2 - t1))];
    EvPrint "duration: {:f}\n" [ADbl (duration_of (u64 (t2 - t1)) (tscHz info))]],
   Done tt).
Proof.
  unfold sample.
  rewrite !ReadTsc_eq. reflexivity.
Qed.

Lemma filter_app_events (p : event -> bool) (t t' : list event) :
  filter p (t ++ t') = filter p t ++ filter p t'.
Proof. apply filter_app. Qed.

Lemma sampling_loop_step (w : world) (info : ProcessorInfo) (n k : nat) :
  sampling_loop w info (S n) k =
  (trace_of (sample w info k) ++ trace_of (sampling_loop w info n (k + 3)),
   snd (sampling_loop w info n (k + 3))).
Proof.
  cbn [sampling_loop]. rewrite sample_eq. cbv zeta. unfold bind.
  destruct (sampling_loop w info n (k + 3)). reflexivity.
Qed.

Lemma sampling_loop_shape (w : world) (info : ProcessorInfo) (n k : nat) :
  value_of (sampling_loop w info n k) = Some tt
  /\ filter is_rdtsc (trace_of (sampling_loop w info n k)) = map EvRdtsc (seq k (3 * n))
  /\ filter is_sleep (trace_of (sampling_loop w info n k)) = repeat (EvSleep 1000) n
  /\ List.length (trace_of (sampling_loop w info n k)) = (7 * n)%nat.
Proof.
  revert k. induction n as [|n IH]; intros k.
  - repeat split; reflexivity.
  - destruct (IH (k + 3)%nat) as [Hv [Hr [Hs Hl]]].
    rewrite sampling_loop_step.
    unfold trace_of, value_of in *. cbn [fst snd] in *.
    split; [exact Hv|].
    rewrite !filter_app_events, length_app, Hr, Hs, Hl, sample_eq.
    cbv zeta. cbn [fst filter is_rdtsc is_sleep List.length app].
    split; [|split; [reflexivity | lia]].
    replace (3 * S n)%nat with (S (S (S (3 * n)))) by lia.
    cbn [seq map]. do 3 f_equal.
    replace (k + 3)%nat with (S (S (S k))) by lia. reflexivity.
Qed.

(** X9: [n] turns of the sampling loop started after [k] counter reads never
    stop on their own and never run into undefined behaviour; they read the
    counter [3 * n] times, in order, sleep [n] times and emit seven events
    per turn. *)
Theorem sampling_loop_counts (w : world) (info : ProcessorInfo) (n k : nat) :
  value_of (sampling_loop w info n k) = Some tt
  /\ filter is_rdtsc (trace_of (sampling_loop w info n k)) = map EvRdtsc (seq k (3 * n))
  /\ filter is_sleep (trace_of (sampling_loop w info n k)) = repeat (EvSleep 1000) n
  /\ List.length (trace_of (sampling_loop w info n k)) = (7 * n)%nat.
Proof. exact (sampling_loop_shape w info n k). Qed.

(** X10: every turn of the loop reports the wrap-around difference of its
    first and third counter reads, which is the true number of elapsed ticks
    whenever fewer than 2^64 ticks elapsed between the two reads, also when
    the 64-bit counter wrapped in between; the duration is computed from that
    difference. *)
Theorem sample_reports_tick_difference (w : world) (info : ProcessorInfo) (k : nat) :
  0 <= tsc w (S (S k)) - tsc w k < 2 ^ 64 ->
  In (EvPrint "ticks for 1 second: {}\n" [AInt (tsc w (S (S k)) - tsc w k)])
     (trace_of (sample w info k))
  /\ In (EvPrint "duration: {:f}\n"
                 [ADbl (duration_of (tsc w (S (S k)) - tsc w k) (tscHz info))])
        (trace_of (sample w info k)).
Proof.
  intros H. rewrite sample_eq. cbv zeta. unfold trace_of. cbn [fst].
  assert (E : u64 (u64 (tsc w (S (S k))) - u64 (tsc w k)) = tsc w (S (S k)) - tsc w k).
  { unfold u64. rewrite <- Zminus_mod. apply Z.mod_small. exact H. }
  rewrite E. split; cbn; tauto.
Qed.

Lemma sample_reports_tick_difference_witness :
  In (EvPrint "ticks for 1 second: {}\n" [AInt 6000000000])
     (trace_of (sample host_skylake (mkInfo INTEL 0x16 [] 0x5E 6 1200000000) 0)).
Proof.
  refine (proj1 (sample_reports_tick_difference host_skylake
                   (mkInfo INTEL 0x16 [] 0x5E 6 1200000000) 0 _)).
  cbn. lia.
Defined.

(** ** [GetProcessorInfo] and [main] *)

Lemma byte_of_Z_value (z : Z) : Z.of_N (Byte.to_N (byte_of_Z z)) = z mod 256.
Proof.
  unfold byte_of_Z.
  assert (Hr : 0 <= z mod 256 < 256) by (apply Z.mod_pos_bound; lia).
  destruct (Byte.of_N (Z.to_N (z mod 256))) as [b|] eqn:E.
  - apply Byte.to_of_N in E. rewrite E. lia.
  - apply Byte.of_N_None_iff in E. lia.
Qed.

(** The bytes of a register in memory order spell its value. *)
Lemma le_decode_reg_bytes (r : Z) : le_decode (reg_bytes r) = r mod 2 ^ 32.
Proof.
  unfold reg_bytes, le_decode. cbn [map fold_right].
  rewrite !byte_of_Z_value, !Z.shiftr_div_pow2 by lia.
  change (2 ^ (8 * 0)) with 1. change (2 ^ (8 * 1)) with 256.
  change (2 ^ (8 * 2)) with 65536. change (2 ^ (8 * 3)) with 16777216.
  change (2 ^ 32) with 4294967296.
  Z.div_mod_to_equations. lia.
Qed.

Lemma reg_bytes_inj (r r' : Z) :
  0 <= r < 2 ^ 32 -> 0 <= r' < 2 ^ 32 -> reg_bytes r = reg_bytes r' -> r = r'.
Proof.
  intros H H' E. apply (f_equal le_decode) in E.
  rewrite !le_decode_reg_bytes, !Z.mod_small in E by assumption. exact E.
Qed.

Lemma c_string_no_nul (bs : list byte) : ~ In x00 (c_string bs).
Proof.
  induction bs as [|b bs IH]; [exact (fun H => H)|].
  cbn [c_string]. destruct (Byte.eqb b x00) eqn:E; [exact (fun H => H)|].
  intros [H|H]; [|exact (IH H)].
  subst b. discriminate E.
Qed.

Lemma c_string_terminated_length (bs : list byte) :
  (List.length (c_string (bs ++ [x00])) <= List.length bs)%nat.
Proof.
  induction bs as [|b bs IH]; [cbn; lia|].
  cbn [app c_string]. destruct (Byte.eqb b x00); cbn [List.length]; lia.
Qed.

(** A terminated string read back at full length is the string stored. *)
Lemma c_string_full (bs t : list byte) :
  List.length t = List.length bs -> c_string (bs ++ [x00]) = t -> bs = t.
Proof.
  revert t. induction bs as [|b bs IH]; intros t Hlen H.
  - destruct t; [reflexivity | discriminate Hlen].
  - cbn [app c_string] in H. destruct (Byte.eqb b x00).
    + subst t. discriminate Hlen.
    + destruct t as [|c t]; [discriminate H|].
      injection H as -> H. f_equal. apply IH; [|exact H].
      cbn in Hlen. lia.
Qed.

Lemma c_string_nul_free (bs : list byte) :
  ~ In x00 bs -> c_string (bs ++ [x00]) = bs.
Proof.
  induction bs as [|b bs IH]; intros H; [reflexivity|].
  cbn [app c_string]. destruct (Byte.eqb b x00) eqn:E.
  - apply Byte.byte_dec_bl in E. subst b. exfalso. apply H. left. reflexivity.
  - f_equal. apply IH. intros Hin. apply H. right. exact Hin.
Qed.

(** [GetProcessorInfo] in closed form. *)
Lemma GetProcessorInfo_eq (w : world) :
  let r0 := cpuid w 0 in
  let eax1 := r_eax (cpuid w 0x01) in
  GetProcessorInfo w =
  (EvCpuid 0
   :: EvPrint "CPUID: {}, max level: {}\n"
              [AStr (processor_name (r_ebx r0) (r_ecx r0) (r_edx r0)); AInt (r_eax r0)]
   :: trace_of (GetProcessorModelFamily w)
   ++ trace_of (GetTscHz w (decode_model eax1) (r_eax r0)),
   match snd (GetTscHz w (decode_model eax1) (r_eax r0)) with
   | Done hz => Done (true, mkInfo (vendor_of (r_ebx r0) (r_ecx r0) (r_edx r0)) (r_eax r0)
                                  (processor_name (r_ebx r0) (r_ecx r0) (r_edx r0))
                                  (decode_model eax1) (decode_family eax1) hz)
   | Undefined => Undefined
   end).
Proof.
  intros r0 eax1.
  unfold GetProcessorInfo, GetProcessorModelFamily, get_cpuid, print, emit, ret, bind,
    trace_of, vendor_of, processor_name.
  cbn [app fst]. fold r0 eax1.
  destruct (GetTscHz w (decode_model eax1) (r_eax r0)) as [t [hz|]].
  - cbn [snd app]. rewrite ?app_nil_r. reflexivity.
  - reflexivity.
Qed.

Lemma signature_bytes :
  list_byte_of_string "GenuineIntel"
  = reg_bytes 0x756e6547 ++ reg_bytes 0x49656e69 ++ reg_bytes 0x6c65746e
  /\ list_byte_of_string "AuthenticAMD"
     = reg_bytes 0x68747541 ++ reg_bytes 0x69746e65 ++ reg_bytes 0x444d4163
  /\ list_byte_of_string "HygonGenuine"
     = reg_bytes 0x6f677948 ++ reg_bytes 0x6e65476e ++ reg_bytes 0x656e6975.
Proof. repeat split; vm_compute; reflexivity. Qed.

(** A name of full length determines the three registers it was built from. *)
Lemma processor_name_inj (ebx ecx edx b c d : Z) :
  0 <= ebx < 2 ^ 32 -> 0 <= ecx < 2 ^ 32 -> 0 <= edx < 2 ^ 32 ->
  0 <= b < 2 ^ 32 -> 0 <= c < 2 ^ 32 -> 0 <= d < 2 ^ 32 ->
  processor_name ebx ecx edx = reg_bytes b ++ reg_bytes d ++ reg_bytes c ->
  ebx = b /\ ecx = c /\ edx = d.
Proof.
  intros Hb Hc Hd Hb' Hc' Hd' H. unfold processor_name in H.
  replace (reg_bytes ebx ++ reg_bytes edx ++ reg_bytes ecx ++ [x00])
    with ((reg_bytes ebx ++ reg_bytes edx ++ reg_bytes ecx) ++ [x00]) in H
    by (rewrite <- !app_assoc; reflexivity).
  apply c_string_full in H; [|reflexivity].
  unfold reg_bytes in H. cbn [map app] in H.
  injection H as H0 H1 H2 H3 H4 H5 H6 H7 H8 H9 H10 H11.
  repeat split; apply reg_bytes_inj; try assumption;
    unfold reg_bytes; cbn [map Z.mul Pos.mul Pos.add Pos.succ]; congruence.
Qed.

Lemma vendor_of_signature (ebx ecx edx : Z) (v : ProcessorVendor) (sig : list byte) :
  0 <= ebx < 2 ^ 32 -> 0 <= ecx < 2 ^ 32 -> 0 <= edx < 2 ^ 32 ->
  signature v = Some sig ->
  (vendor_of ebx ecx edx = v <-> processor_name ebx ecx edx = sig).
Proof.
  intros Hb Hc Hd Hs.
  destruct signature_bytes as [SI [SA SH]].
  split.
  - intros Hv. unfold vendor_of in Hv.
    repeat match type of Hv with
           | context [(?x =? ?k) && _ && _] =>
               let E := fresh "E" in
               destruct ((x =? k) && (ecx =? _) && (edx =? _)) eqn:E;
               [ apply andb_prop in E; destruct E as [E E3];
                 apply andb_prop in E; destruct E as [E1 E2];
                 apply Z.eqb_eq in E1, E2, E3; subst ebx ecx edx | ]
           end;
      subst v; try discriminate Hs; injection Hs as <-; vm_compute; reflexivity.
  - intros Hn.
    destruct v; try discriminate Hs; injection Hs as <-;
      [rewrite SI in Hn | rewrite SA in Hn | rewrite SH in Hn];
      apply processor_name_inj in Hn; try lia;
      destruct Hn as [-> [-> ->]]; reflexivity.
Qed.

Lemma GetProcessorInfo_value (w : world) (ok : bool) (info : ProcessorInfo) :
  value_of (GetProcessorInfo w) = Some (ok, info) ->
  let r0 := cpuid w 0 in
  let eax1 := r_eax (cpuid w 0x01) in
  ok = true
  /\ info = mkInfo (vendor_of (r_ebx r0) (r_ecx r0) (r_edx r0)) (r_eax r0)
                   (processor_name (r_ebx r0) (r_ecx r0) (r_edx r0))
                   (decode_model eax1) (decode_family eax1) (tscHz info)
  /\ value_of (GetTscHz w (decode_model eax1) (r_eax r0)) = Some (tscHz info).
Proof.
  intros H r0 eax1. pose proof (GetProcessorInfo_eq w) as E. cbv zeta in E.
  fold r0 eax1 in E. rewrite E in H. unfold value_of in *. cbn [snd] in *.
  destruct (snd (GetTscHz w (decode_model eax1) (r_eax r0))) as [hz|]; [|discriminate H].
  injection H as <- <-. repeat split.
Qed.

(** X11: for 32-bit signature registers, [GetProcessorInfo] reports a vendor
    exactly when the name it builds spells that vendor's signature
    (GenuineIntel, AuthenticAMD, HygonGenuine), and UNKNOWN exactly when the
    name is none of the three. *)
Theorem vendor_agrees_with_name (w : world) (ok : bool) (info : ProcessorInfo) :
  wf_regs (cpuid w 0) ->
  value_of (GetProcessorInfo w) = Some (ok, info) ->
  (forall v sig, signature v = Some sig -> (vendor info = v <-> name info = sig))
  /\ (vendor info = UNKNOWN <-> forall v, signature v <> Some (name info)).
Proof.
  intros [_ [Hb [Hc Hd]]] H.
  destruct (GetProcessorInfo_value w ok info H) as [_ [Hi _]].
  assert (Hsig : forall v sig, signature v = Some sig ->
                               (vendor info = v <-> name info = sig)).
  { intros v sig Hs. rewrite Hi. cbn [vendor name].
    apply vendor_of_signature; assumption. }
  split; [exact Hsig|].
  split.
  - intros Hu v Hs.
    assert (Hv : vendor info = v) by (apply (Hsig v (name info) Hs); reflexivity).
    rewrite Hu in Hv. subst v. discriminate Hs.
  - intros Hnone. destruct (vendor info) eqn:Ev; [| | |reflexivity]; exfalso.
    + apply (Hnone INTEL). cbn [signature]. f_equal. symmetry.
      apply (proj1 (Hsig INTEL _ eq_refl)). reflexivity.
    + apply (Hnone AMD). cbn [signature]. f_equal. symmetry.
      apply (proj1 (Hsig AMD _ eq_refl)). reflexivity.
    + apply (Hnone HYGON). cbn [signature]. f_equal. symmetry.
      apply (proj1 (Hsig HYGON _ eq_refl)). reflexivity.
Qed.

Lemma vendor_agrees_with_name_witness :
  name (mkInfo AMD 0x0D (list_byte_of_string "AuthenticAMD") 0x04 0x10 0)
  = list_byte_of_string "AuthenticAMD".
Proof.
  refine (proj1 (proj1 (vendor_agrees_with_name host_amd true
                          (mkInfo AMD 0x0D (list_byte_of_string "AuthenticAMD") 0x04 0x10 0)
                          _ _) AMD _ eq_refl) eq_refl).
  - unfold wf_regs. cbn. lia.
  - vm_compute. reflexivity.
Defined.

(** X12: the name [GetProcessorInfo] stores is the twelve signature bytes
    (ebx, edx, ecx in memory order) cut at the first NUL: it holds no NUL, is
    at most twelve bytes long, and is all twelve bytes when none of them is
    NUL. *)
Theorem name_is_cut_at_nul (w : world) (ok : bool) (info : ProcessorInfo) :
  value_of (GetProcessorInfo w) = Some (ok, info) ->
  let raw := reg_bytes (r_ebx (cpuid w 0)) ++ reg_bytes (r_edx (cpuid w 0))
             ++ reg_bytes (r_ecx (cpuid w 0)) in
  (List.length (name info) <= 12)%nat
  /\ ~ In x00 (name info)
  /\ (~ In x00 raw -> name info = raw).
Proof.
  intros H raw.
  destruct (GetProcessorInfo_value w ok info H) as [_ [Hi _]].
  assert (Hn : name info = c_string (raw ++ [x00])).
  { rewrite Hi. cbn [name]. unfold processor_name, raw.
    rewrite <- !app_assoc. reflexivity. }
  rewrite Hn. split; [|split].
  - apply (c_string_terminated_length raw).
  - apply c_string_no_nul.
  - apply c_string_nul_free.
Qed.

Lemma name_is_cut_at_nul_witness :
  (List.length (name (mkInfo AMD 0x0D (list_byte_of_string "AuthenticAMD") 0x04 0x10 0))
   <= 12)%nat.
Proof.
  refine (proj1 (name_is_cut_at_nul host_amd true
                   (mkInfo AMD 0x0D (list_byte_of_string "AuthenticAMD") 0x04 0x10 0) _)).
  vm_compute. reflexivity.
Defined.

(** X13: [GetProcessorInfo] never reports failure.  When it finishes, the
    information carries the maximum level of CPUID leaf 0, the model and
    family decoded from leaf 1, and the frequency [GetTscHz] finds for that
    model and level; it stops short only where [GetTscHz] does. *)
Theorem GetProcessorInfo_reports (w : world) :
  (forall ok info,
      value_of (GetProcessorInfo w) = Some (ok, info) ->
      ok = true
      /\ maxLevel info = r_eax (cpuid w 0)
      /\ model info = decode_model (r_eax (cpuid w 0x01))
      /\ family info = decode_family (r_eax (cpuid w 0x01))
      /\ value_of (GetTscHz w (model info) (maxLevel info)) = Some (tscHz info))
  /\ (value_of (GetProcessorInfo w) = None
      <-> value_of (GetTscHz w (decode_model (r_eax (cpuid w 0x01))) (r_eax (cpuid w 0)))
          = None).
Proof.
  split.
  - intros ok info H.
    destruct (GetProcessorInfo_value w ok info H) as [Hok [Hi Hz]].
    split; [exact Hok|]. rewrite Hi. cbn [maxLevel model family tscHz].
    repeat split. exact Hz.
  - pose proof (GetProcessorInfo_eq w) as E. cbv zeta in E. rewrite E.
    unfold value_of. cbn [snd].
    destruct (snd (GetTscHz w _ _)); split; (discriminate || reflexivity).
Qed.

Lemma GetProcessorInfo_reports_witness :
  value_of (GetTscHz host_skylake 0x5E 0x16) = Some 1200000000.
Proof.
  refine (proj2 (proj2 (proj2 (proj2
            (proj1 (GetProcessorInfo_reports host_skylake) true
                   (mkInfo INTEL 0x16 (list_byte_of_string "GenuineIntel") 0x5E 6 1200000000)
                   _))))).
  vm_compute. reflexivity.
Defined.

Lemma timing_free_filters (t : list event) :
  timing_free t = true -> filter is_rdtsc t = [] /\ filter is_sleep t = [].
Proof.
  unfold timing_free. induction t as [|e t IH]; intros H; [split; reflexivity|].
  cbn [forallb] in H. apply andb_prop in H. destruct H as [He Ht].
  destruct (IH Ht) as [IH1 IH2]. cbn [filter]. rewrite IH1, IH2.
  destruct (is_rdtsc e), (is_sleep e); try discriminate He; split; reflexivity.
Qed.

Lemma timing_free_app (t t' : list event) :
  timing_free (t ++ t') = timing_free t && timing_free t'.
Proof. apply forallb_app. Qed.

Lemma tier1_timing_free (w : world) (model maxLevel : Z) :
  timing_free (trace_of (tier1 w model maxLevel)) = true.
Proof.
  destruct (Z_lt_ge_dec maxLevel 0x15) as [Hl|Hl].
  - rewrite tier1_unsupported by exact Hl. reflexivity.
  - rewrite tier1_supported by lia.
    destruct (r_ebx (cpuid w 0x15) =? 0); [reflexivity|].
    destruct (crystal_hz model (r_ecx (cpuid w 0x15)) =? 0); [reflexivity|].
    destruct (r_eax (cpuid w 0x15) =? 0); reflexivity.
Qed.

Lemma GetTscHz_timing_free (w : world) (model maxLevel : Z) :
  timing_free (trace_of (GetTscHz w model maxLevel)) = true.
Proof.
  pose proof (tier1_timing_free w model maxLevel) as H1.
  rewrite GetTscHz_eq.
  destruct (tier1 w model maxLevel) as [t [v|]]; unfold trace_of in *; cbn [fst] in *.
  - destruct (v =? 0); cbn [fst]; [|exact H1].
    rewrite timing_free_app, H1, tier2_eq. cbn [fst]. rewrite ReadMsr_eq.
    destruct (msr_dev w); reflexivity.
  - exact H1.
Qed.

Lemma GetProcessorInfo_timing_free (w : world) :
  timing_free (trace_of (GetProcessorInfo w)) = true.
Proof.
  pose proof (GetProcessorInfo_eq w) as E. cbv zeta in E. rewrite E.
  unfold trace_of at 1. cbn [fst].
  change (?a :: ?b :: ?l) with ([a; b] ++ l).
  rewrite !timing_free_app, GetTscHz_timing_free. reflexivity.
Qed.

Lemma main_eq (w : world) (n : nat) :
  main w n =
  match GetProcessorInfo w with
  | (t, Done (_, info)) =>
      (t ++ EvPrint "TSC: {} \n" [AInt (tscHz info)] :: trace_of (sampling_loop w info n 0),
       Done None)
  | (t, Undefined) => (t, Undefined)
  end.
Proof.
  unfold main.
  pose proof (GetProcessorInfo_value w) as Hv.
  destruct (GetProcessorInfo w) as [t [[ok info]|]]; [|reflexivity].
  destruct (Hv ok info eq_refl) as [-> _].
  cbn [bind negb print emit].
  pose proof (sampling_loop_shape w info n 0) as [Hd _].
  destruct (sampling_loop w info n 0) as [tl [[]|]]; [|discriminate Hd].
  cbn. rewrite app_nil_r. reflexivity.
Qed.

(** X14: [main] never exits: observed for any number [n] of loop turns it
    has produced no exit code (the failure branch after [GetProcessorInfo] is
    never taken), and unless discovery stopped short it has printed the
    discovered frequency and then made exactly [3 * n] counter reads, in
    order, and [n] sleeps. *)
Theorem main_never_exits (w : world) (n : nat) :
  (forall c, value_of (main w n) <> Some (Some c))
  /\ match value_of (GetProcessorInfo w) with
     | Some (_, info) =>
         main w n
         = (trace_of (GetProcessorInfo w)
            ++ EvPrint "TSC: {} \n" [AInt (tscHz info)]
            :: trace_of (sampling_loop w info n 0),
            Done None)
         /\ filter is_rdtsc (trace_of (main w n)) = map EvRdtsc (seq 0 (3 * n))
         /\ count is_sleep (trace_of (main w n)) = n
     | None => main w n = (trace_of (GetProcessorInfo w), Undefined)
     end.
Proof.
  destruct (timing_free_filters _ (GetProcessorInfo_timing_free w)) as [Hr Hs].
  rewrite main_eq.
  destruct (GetProcessorInfo w) as [t [[ok info]|]]; unfold value_of, trace_of in *;
    cbn [fst snd] in *.
  - split; [discriminate|]. split; [reflexivity|].
    destruct (sampling_loop_shape w info n 0) as [_ [Hlr [Hls _]]].
    unfold trace_of, count in *.
    rewrite !filter_app_events, Hr, Hs. cbn [filter is_rdtsc is_sleep app].
    rewrite Hlr, Hls. split; [reflexivity|]. apply repeat_length.
  - split; [discriminate | reflexivity].
Qed.

Lemma main_never_exits_witness :
  main host_msr 2
  = (trace_of (GetProcessorInfo host_msr)
     ++ EvPrint "TSC: {} \n" [AInt 3000000000]
     :: trace_of (sampling_loop host_msr
                    (mkInfo INTEL 0x0D (list_byte_of_string "GenuineIntel") 0x3A 6 3000000000)
                    2 0),
     Done None).
Proof.
  exact (proj1 (proj2 (main_never_exits host_msr 2))).
Defined.

(** ** Edge cases of discovery *)

(** X15: a tier-1 quotient that truncates to zero counts as failure of the
    tier.  For 32-bit registers with a denominator larger than the product of
    crystal frequency and numerator, tier 1 divides and yields zero, and
    [GetTscHz] goes on to the MSR read and returns what tier 2 finds. *)
Theorem tier1_zero_quotient_falls_through (w : world) (model maxLevel : Z) :
  wf_regs (cpuid w 0x15) ->
  0x15 <= maxLevel ->
  r_ebx (cpuid w 0x15) <> 0 ->
  crystal_hz model (r_ecx (cpuid w 0x15)) <> 0 ->
  crystal_hz model (r_ecx (cpuid w 0x15)) * r_ebx (cpuid w 0x15) < r_eax (cpuid w 0x15) ->
  value_of (tier1 w model maxLevel) = Some 0
  /\ no_division (trace_of (tier1 w model maxLevel)) = false
  /\ value_of (GetTscHz w model maxLevel) = value_of (tier2 w model)
  /\ existsb is_open (trace_of (GetTscHz w model maxLevel)) = true.
Proof.
  intros Hwf Hl Hb Hc Hlt.
  pose proof (tier1_product_exact w model Hwf) as Hp. cbv zeta in Hp.
  assert (Hprod : 0 <= crystal_hz model (r_ecx (cpuid w 0x15)) * r_ebx (cpuid w 0x15)).
  { rewrite <- Hp. unfold u64. apply Z.mod_pos_bound. lia. }
  assert (Ha : r_eax (cpuid w 0x15) <> 0) by lia.
  assert (Hq : crystal_hz model (r_ecx (cpuid w 0x15)) * r_ebx (cpuid w 0x15)
               / r_eax (cpuid w 0x15) = 0) by (apply Z.div_small; lia).
  assert (H1 : value_of (tier1 w model maxLevel) = Some 0).
  { rewrite (proj1 (tier1_quotient w model maxLevel Hwf Hl Hb Hc Ha)).
    f_equal. exact Hq. }
  split; [exact H1|]. split.
  - rewrite tier1_divides by assumption.
    apply Z.eqb_neq in Ha. rewrite Ha. reflexivity.
  - rewrite (GetTscHz_after_zero w model maxLevel H1), tier2_eq.
    split; [reflexivity|].
    unfold trace_of at 1. cbn [fst]. rewrite existsb_app_events, ReadMsr_eq.
    destruct (msr_dev w); cbn; apply orb_true_r.
Qed.

Lemma tier1_zero_quotient_falls_through_witness :
  value_of (tier1 (host (GenuineIntel 0x16) (mkRegs 0x000506E3 0 0 0)
                        (mkRegs 4000000000 3 1000 0) None) 0x5E 0x16) = Some 0.
Proof.
  refine (proj1 (tier1_zero_quotient_falls_through
                   (host (GenuineIntel 0x16) (mkRegs 0x000506E3 0 0 0)
                         (mkRegs 4000000000 3 1000 0) None) 0x5E 0x16 _ _ _ _ _)).
  - unfold wf_regs. cbn. lia.
  - cbn. lia.
  - discriminate.
  - discriminate.
  - cbn. lia.
Defined.

Lemma bus_mult_nonzero (model : Z) : bus_mult model <> 0.
Proof. destruct (bus_mult_cases model) as [-> | ->]; discriminate. Qed.

(** X16: [GetTscHz] returns zero, the mark of total failure, exactly when
    tier 1 yields zero and the MSR gives nothing usable: no complete read of
    register 0xCE, or a value whose ratio field (bits 8-15) is zero. *)
Theorem GetTscHz_zero_iff (w : world) (model maxLevel : Z) :
  value_of (GetTscHz w model maxLevel) = Some 0
  <-> (value_of (tier1 w model maxLevel) = Some 0
       /\ match msr_value w 0xCE with
          | Some value => ratio_of value = 0
          | None => True
          end).
Proof.
  rewrite GetTscHz_eq.
  destruct (tier1 w model maxLevel) as [t [v|]].
  - destruct (v =? 0) eqn:E.
    + apply Z.eqb_eq in E. subst v. rewrite tier2_eq. unfold value_of. cbn [snd].
      destruct (msr_value w 0xCE) as [value|].
      * pose proof (bus_mult_nonzero model) as Hm.
        split.
        -- intros H. injection H as H. split; [reflexivity|]. nia.
        -- intros [_ H]. rewrite H. reflexivity.
      * split; [intros _; split; [reflexivity | exact I] | reflexivity].
    + apply Z.eqb_neq in E. unfold value_of. cbn [snd].
      split; [intros H; injection H as H; contradiction|].
      intros [H _]. injection H as H. contradiction.
  - unfold value_of. cbn [snd]. split; [discriminate | intros [H _]; discriminate H].
Qed.

Lemma GetTscHz_zero_iff_witness :
  value_of (GetTscHz host_unprivileged 0x3A 0x0D) = Some 0.
Proof.
  apply (proj2 (GetTscHz_zero_iff host_unprivileged 0x3A 0x0D)).
  split; [reflexivity | exact I].
Defined.
